(** * inspire_schemas.api: the LiteratureBuilder, embedded and verified

    A shallow embedding of [src/inspire_schemas/api.py].  Python values are
    a small inductive type, the record [self.obj] is an insertion-ordered
    dictionary with string keys, and every builder method is a computation
    in a state monad whose exceptions keep the state reached so far (a Python
    exception does not roll the record back).

    A string is a sequence of characters with codes below 256: the bytes of
    a Python 2 [str], or a Python 3 [str] of Latin-1 characters.  What the
    two interpreters do differently with such strings inside this module,
    the classes [\w], [\d], [\s] of the DOI pattern and the strings [int]
    reads, is a parameter of the model ([Interpreter]); the properties are
    proved for every interpreter, and the concrete runs at the end are made
    with the Python 2 tables.  [strip] and [lower] are the ASCII ones. *)

From Stdlib Require Import String Ascii List ZArith Bool Lia NArith.
From Stdlib Require Import DecimalString.
Import ListNotations.

Open Scope string_scope.
Open Scope list_scope.

(** ** Characters and the string methods the builder calls *)

Module PyStr.

Definition code (c : ascii) : N := N_of_ascii c.

Definition in_range (lo hi : N) (c : ascii) : bool :=
  (lo <=? code c)%N && (code c <=? hi)%N.

Definition is_upper (c : ascii) : bool := in_range 65 90 c.
Definition is_lower (c : ascii) : bool := in_range 97 122 c.
Definition is_digit (c : ascii) : bool := in_range 48 57 c.

(** [\s] of a Python 2 byte pattern, and the characters [str.strip()]
    removes: space, tab, newline, vertical tab, form feed, carriage
    return. *)
Definition is_space (c : ascii) : bool :=
  (code c =? 32)%N || in_range 9 13 c.

(** [\w] of a Python 2 byte pattern: letters, digits and the underscore. *)
Definition is_word (c : ascii) : bool :=
  is_upper c || is_lower c || is_digit c || (code c =? 95)%N.

Definition lower_char (c : ascii) : ascii :=
  if is_upper c then ascii_of_N (code c + 32) else c.

Definition chars (s : string) : list ascii := list_ascii_of_string s.
Definition of_chars (l : list ascii) : string := string_of_list_ascii l.

(** [s.lower()] *)
Definition lower (s : string) : string := of_chars (map lower_char (chars s)).

(** [s.replace(c, '')] for a one-character [c] *)
Definition remove_char (c : ascii) (s : string) : string :=
  of_chars (filter (fun x => negb (Ascii.eqb x c)) (chars s)).

Fixpoint lstrip_chars (l : list ascii) : list ascii :=
  match l with
  | c :: l' => if is_space c then lstrip_chars l' else l
  | [] => []
  end.

(** [s.strip()] *)
Definition strip (s : string) : string :=
  of_chars (rev (lstrip_chars (rev (lstrip_chars (chars s))))).

(** [s.split(c)]: the pieces between the occurrences of [c]; never empty. *)
Fixpoint split_chars (c : ascii) (l : list ascii) : list (list ascii) :=
  match l with
  | [] => [[]]
  | x :: l' =>
      if Ascii.eqb x c then [] :: split_chars c l'
      else match split_chars c l' with
           | p :: ps => (x :: p) :: ps
           | [] => [[x]]
           end
  end.

Definition split (c : ascii) (s : string) : list string :=
  map of_chars (split_chars c (chars s)).

(** [sep.join(l)] *)
Fixpoint join (sep : string) (l : list string) : string :=
  match l with
  | [] => ""
  | [s] => s
  | s :: l' => s ++ sep ++ join sep l'
  end.

(** [needle in s]: [needle] occurs in [s] as a substring. *)
Fixpoint contains (needle s : string) : bool :=
  String.prefix needle s ||
  match s with
  | EmptyString => false
  | String _ s' => contains needle s'
  end.

(** The decimal digits of Python 2's [int(s)]: what is left once
    surrounding white space and one sign are removed must be one or more
    digits. *)
Fixpoint digits_value (acc : Z) (l : list ascii) : option Z :=
  match l with
  | [] => Some acc
  | c :: l' =>
      if is_digit c
      then digits_value (10 * acc + Z.of_N (code c - 48)) l'
      else None
  end.

Definition unsigned_value (l : list ascii) : option Z :=
  match l with
  | [] => None
  | _ => digits_value 0 l
  end.

(** Python 2's [int(s)] for a byte string [s]; [None] is [ValueError]. *)
Definition parse_int (s : string) : option Z :=
  match chars (strip s) with
  | "-"%char :: l => option_map Z.opp (unsigned_value l)
  | "+"%char :: l => unsigned_value l
  | l => unsigned_value l
  end.

(** [str(n)] for an integer [n] *)
Definition of_Z (n : Z) : string := NilZero.string_of_int (Z.to_int n).

End PyStr.

(** ** What depends on the interpreter *)

(** The classes [\w], [\d] and [\s] of a pattern and the strings that
    [int] reads are tables of the interpreter that runs the module: a
    Python 2 byte pattern has the ASCII classes, a Python 3 [str] pattern
    without [re.ASCII] has the Unicode ones; Python 3 [int] reads digit
    groups such as [1_0], Python 2 [int] refuses them.  The builder is
    modelled over any such tables.  What every interpreter has: the ASCII
    letters are in [\w] and are neither in [\d] nor in [\s], the ASCII
    digits are in [\d], and [int('')] raises [ValueError]. *)
Class Interpreter : Type := {
  re_word : ascii -> bool;
  re_digit : ascii -> bool;
  re_space : ascii -> bool;
  int_of_str : string -> option Z;
  re_word_letter :
    forall x, PyStr.is_upper x || PyStr.is_lower x = true -> re_word x = true;
  re_digit_letter :
    forall x, PyStr.is_upper x || PyStr.is_lower x = true -> re_digit x = false;
  re_space_letter :
    forall x, PyStr.is_upper x || PyStr.is_lower x = true -> re_space x = false;
  re_digit_ascii : forall x, PyStr.is_digit x = true -> re_digit x = true;
  int_of_empty : int_of_str "" = None
}.

(** ** Python values *)

(** The values that reach the builder: [None], booleans, integers, strings,
    lists, dictionaries with string keys (in insertion order), and generator
    objects, which hold the items they have not produced yet. *)
#[warnings="-register-all"]
Inductive value : Type :=
| VNone
| VBool (b : bool)
| VInt (z : Z)
| VStr (s : string)
| VList (l : list value)
| VDict (d : list (string * value))
| VGen (pending : list value).

Definition dict : Type := list (string * value).

Fixpoint dict_get (k : string) (d : dict) : option value :=
  match d with
  | [] => None
  | (k', v) :: d' => if String.eqb k k' then Some v else dict_get k d'
  end.

(** [k in d] *)
Definition dict_mem (k : string) (d : dict) : bool :=
  match dict_get k d with Some _ => true | None => false end.

(** [d[k] = v]: a present key keeps its place, a new one goes last. *)
Fixpoint dict_set (k : string) (v : value) (d : dict) : dict :=
  match d with
  | [] => [(k, v)]
  | (k', v') :: d' =>
      if String.eqb k k' then (k', v) :: d' else (k', v') :: dict_set k v d'
  end.

(** [bool(v)] *)
Definition truthy (v : value) : bool :=
  match v with
  | VNone => false
  | VBool b => b
  | VInt z => negb (z =? 0)%Z
  | VStr s => negb (String.eqb s "")
  | VList l => match l with [] => false | _ => true end
  | VDict d => match d with [] => false | _ => true end
  | VGen _ => true
  end.

(** [v is not None] *)
Definition is_not_None (v : value) : bool :=
  match v with VNone => false | _ => true end.

(** ** Exceptions and the builder monad *)

Inductive exn : Type := AttributeError | TypeError | ValueError | KeyError.

Inductive outcome (A : Type) : Type :=
| Returns (a : A)
| Raises (e : exn).
Arguments Returns {A} a.
Arguments Raises {A} e.

Section Conversions.

Context {py : Interpreter}.

(** [int(v)] *)
Definition py_int (v : value) : outcome Z :=
  match v with
  | VInt z => Returns z
  | VBool b => Returns (if b then 1 else 0)%Z
  | VStr s => match int_of_str s with
              | Some z => Returns z
              | None => Raises ValueError
              end
  | _ => Raises TypeError
  end.

End Conversions.

(** [k == v] for a string [k]: only an equal string is equal to it. *)
Definition str_eq (k : string) (v : value) : bool :=
  match v with VStr s => String.eqb k s | _ => false end.

(** [k in c] for a string [k]: an element of a list, a key of a dictionary,
    a substring of a string. *)
Definition py_in (k : string) (c : value) : outcome bool :=
  match c with
  | VList l => Returns (existsb (str_eq k) l)
  | VGen l => Returns (existsb (str_eq k) l)
  | VDict d => Returns (dict_mem k d)
  | VStr s => Returns (PyStr.contains k s)
  | _ => Raises TypeError
  end.

(** The builder: [self.obj] and [self.source]. *)
Record LiteratureBuilder : Type := mkBuilder {
  obj : dict;
  source : value
}.

(** [LiteratureBuilder(source)] *)
Definition init (src : value) : LiteratureBuilder :=
  {| obj := []; source := src |}.

Definition with_obj (d : dict) (b : LiteratureBuilder) : LiteratureBuilder :=
  {| obj := d; source := source b |}.

(** A method body: from the builder to what the call does (returns or
    raises) and the builder it leaves, raised or not. *)
Definition M (A : Type) : Type := LiteratureBuilder -> outcome A * LiteratureBuilder.

Definition ret {A} (a : A) : M A := fun b => (Returns a, b).

Definition raise {A} (e : exn) : M A := fun b => (Raises e, b).

Definition bind {A B} (m : M A) (f : A -> M B) : M B :=
  fun b =>
    match m b with
    | (Returns a, b') => f a b'
    | (Raises e, b') => (Raises e, b')
    end.

Declare Scope builder_scope.
Delimit Scope builder_scope with builder.
Notation "x <- m ;; k" := (bind m (fun x => k))
  (at level 61, m at next level, right associativity) : builder_scope.
Notation "m ;; k" := (bind m (fun _ => k))
  (at level 61, right associativity) : builder_scope.
Open Scope builder_scope.

(** What a call leaves behind. *)
Definition exec {A} (m : M A) (b : LiteratureBuilder) : LiteratureBuilder :=
  snd (m b).

Definition result {A} (m : M A) (b : LiteratureBuilder) : outcome A :=
  fst (m b).

Definition lift {A} (o : outcome A) : M A := fun b => (o, b).

(** ** The builder's private helpers *)

(** [if field_name not in obj: obj[field_name] = value], on any dictionary *)
Definition dict_ensure (field_name : string) (v : value) (d : dict) : dict :=
  if dict_mem field_name d then d else dict_set field_name v d.

(** [self._ensure_field(field_name, value)], on [self.obj] *)
Definition _ensure_field (field_name : string) (v : value) : M unit :=
  fun b => (Returns tt, with_obj (dict_ensure field_name v (obj b)) b).

(** [self._get_source(source)] *)
Definition _get_source (src : value) : M value :=
  fun b => (Returns (if is_not_None src then src else source b), b).

(** [self.obj[field]] *)
Definition obj_getitem (field : string) : M value :=
  fun b =>
    match dict_get field (obj b) with
    | Some v => (Returns v, b)
    | None => (Raises KeyError, b)
    end.

(** [self.obj[field] = v] *)
Definition obj_setitem (field : string) (v : value) : M unit :=
  fun b => (Returns tt, with_obj (dict_set field v (obj b)) b).

(** [self.obj[field].append(x)]: only a list has [append]; the list is
    changed in place, so the record sees the longer list. *)
Definition obj_append (field : string) (x : value) : M unit :=
  c <- obj_getitem field ;;
  match c with
  | VList l => obj_setitem field (VList (l ++ [x]))
  | _ => raise AttributeError
  end.

(** [self.obj[field].extend(xs)] for a list [xs] *)
Definition obj_extend (field : string) (xs : list value) : M unit :=
  c <- obj_getitem field ;;
  match c with
  | VList l => obj_setitem field (VList (l ++ xs))
  | _ => raise AttributeError
  end.

(** ** Regular expressions, as far as the DOI pattern needs them *)

Module Regex.

(** What stands inside brackets (or alone): a character, [\w], [\d], [\s]. *)
Inductive item : Type :=
| Ch (c : ascii)
| Word
| Digit
| Space.

Inductive regex : Type :=
| Void
| Eps
| Atom (set : list item)
| Cat (r1 r2 : regex)
| Alt (r1 r2 : regex)
| Star (r : regex).

Section Classes.

Context {py : Interpreter}.

(** [re.IGNORECASE] makes a character stand for both of its cases; the
    classes [\w], [\d] and [\s] do not depend on it; they are the
    interpreter's. *)
Definition item_matches (ignorecase : bool) (it : item) (x : ascii) : bool :=
  match it with
  | Ch c =>
      if ignorecase
      then Ascii.eqb (PyStr.lower_char x) (PyStr.lower_char c)
      else Ascii.eqb x c
  | Word => re_word x
  | Digit => re_digit x
  | Space => re_space x
  end.

Definition set_matches (ignorecase : bool) (set : list item) (x : ascii) : bool :=
  existsb (fun it => item_matches ignorecase it x) set.

End Classes.

(** Derived forms: [r?], [r+], [r{4}], a sequence, a literal string. *)
Definition Opt (r : regex) : regex := Alt r Eps.
Definition Plus (r : regex) : regex := Cat r (Star r).
Definition Rep4 (r : regex) : regex := Cat r (Cat r (Cat r r)).
Definition Lit (c : ascii) : regex := Atom [Ch c].

Fixpoint Seq (rs : list regex) : regex :=
  match rs with
  | [] => Eps
  | r :: rs' => Cat r (Seq rs')
  end.

Definition Str (s : string) : regex := Seq (map Lit (PyStr.chars s)).

Section Matching.

Context {py : Interpreter}.
Variable ignorecase : bool.

(** The language of a pattern. *)
Inductive matches : regex -> list ascii -> Prop :=
| MEps : matches Eps []
| MAtom set x : set_matches ignorecase set x = true -> matches (Atom set) [x]
| MCat r1 r2 s1 s2 :
    matches r1 s1 -> matches r2 s2 -> matches (Cat r1 r2) (s1 ++ s2)
| MAltL r1 r2 s : matches r1 s -> matches (Alt r1 r2) s
| MAltR r1 r2 s : matches r2 s -> matches (Alt r1 r2) s
| MStar0 r : matches (Star r) []
| MStarS r s1 s2 :
    matches r s1 -> matches (Star r) s2 -> matches (Star r) (s1 ++ s2).

(** The matcher, by derivatives. *)
Fixpoint nullable (r : regex) : bool :=
  match r with
  | Void => false
  | Eps => true
  | Atom _ => false
  | Cat r1 r2 => nullable r1 && nullable r2
  | Alt r1 r2 => nullable r1 || nullable r2
  | Star _ => true
  end.

Fixpoint deriv (x : ascii) (r : regex) : regex :=
  match r with
  | Void => Void
  | Eps => Void
  | Atom set => if set_matches ignorecase set x then Eps else Void
  | Cat r1 r2 =>
      if nullable r1
      then Alt (Cat (deriv x r1) r2) (deriv x r2)
      else Cat (deriv x r1) r2
  | Alt r1 r2 => Alt (deriv x r1) (deriv x r2)
  | Star r1 => Cat (deriv x r1) (Star r1)
  end.

(** The whole of [s] is in the language of [r]. *)
Fixpoint fullmatch (r : regex) (s : list ascii) : bool :=
  match s with
  | [] => nullable r
  | x :: s' => fullmatch (deriv x r) s'
  end.

(** [pattern.match(s)] succeeds: some prefix of [s], from its first
    character on, is in the language of [r]. *)
Fixpoint match_prefix (r : regex) (s : list ascii) : bool :=
  nullable r ||
  match s with
  | [] => false
  | x :: s' => match_prefix (deriv x r) s'
  end.

End Matching.

End Regex.

Import Regex.

Section Builder.

Context {py : Interpreter}.

(** The pattern of [_doi_normalization], compiled with [re.VERBOSE] (blanks
    and comments of the pattern are dropped) and [re.IGNORECASE]:
<<
    ( ( \(? [Dd][Oo][Ii] (\s)* \)? :? (\s)* )
    | ( https?:// (dx\.)? doi\.org\/ ) )?
    (?P<doi> 10\.
    \d{4}
    ( / | %2f )
    [\w\-_:;\(\)/\.<>]+
    [\w\-_:;\(\)/<>] )
>> *)
Definition doi_label : regex :=
  Seq [Opt (Lit "("); Atom [Ch "D"; Ch "d"]; Atom [Ch "O"; Ch "o"];
       Atom [Ch "I"; Ch "i"]; Star (Atom [Space]); Opt (Lit ")");
       Opt (Lit ":"); Star (Atom [Space])].

Definition doi_url : regex :=
  Seq [Str "http"; Opt (Lit "s"); Str "://"; Opt (Str "dx."); Str "doi.org/"].

Definition doi_tail_set : list item :=
  [Word; Ch "-"; Ch "_"; Ch ":"; Ch ";"; Ch "("; Ch ")"; Ch "/"; Ch "<"; Ch ">"].

Definition doi_body_set : list item :=
  [Word; Ch "-"; Ch "_"; Ch ":"; Ch ";"; Ch "("; Ch ")"; Ch "/"; Ch "."; Ch "<"; Ch ">"].

Definition doi_group : regex :=
  Seq [Str "10."; Rep4 (Atom [Digit]); Alt (Lit "/") (Str "%2f");
       Plus (Atom doi_body_set); Atom doi_tail_set].

Definition doi_pattern : regex :=
  Cat (Opt (Alt doi_label doi_url)) doi_group.

(** [_doi_normalization(doi_id)], as the truth value [add_doi] tests. *)
Definition _doi_normalization (doi_id : string) : bool :=
  match_prefix true doi_pattern (PyStr.chars doi_id).

(** ** The public methods of [LiteratureBuilder] *)

(** An entry such as [{'value': v, 'source': s}], keys in the order written. *)
Definition entry (kvs : list (string * value)) : value := VDict kvs.

Definition add_abstract (abstract : string) (src : value) : M unit :=
  _ensure_field "abstracts" (VList []) ;;
  s <- _get_source src ;;
  obj_append "abstracts"
    (entry [("value", VStr (PyStr.strip abstract)); ("source", s)]).

Definition add_arxiv_eprint (arxiv_id arxiv_categories : value) : M unit :=
  _ensure_field "arxiv_eprints" (VList []) ;;
  obj_append "arxiv_eprints"
    (entry [("value", arxiv_id); ("categories", arxiv_categories)]) ;;
  obj_setitem "citeable" (VBool true).

Definition add_doi (doi : string) (src : value) : M unit :=
  _ensure_field "dois" (VList []) ;;
  if _doi_normalization doi then
    s <- _get_source src ;;
    obj_append "dois" (entry [("value", VStr doi); ("source", s)]) ;;
    obj_setitem "citeable" (VBool true)
  else ret tt.

Definition add_author (author : value) : M unit :=
  _ensure_field "authors" (VList []) ;;
  obj_append "authors" author.

(** [_verify_author_name_initials]: no character outside [A-Z. ] is found. *)
Definition _verify_author_name_initials (author_name : string) : bool :=
  negb (existsb
          (fun c => negb (PyStr.is_upper c || Ascii.eqb c "." || Ascii.eqb c " "))
          (PyStr.chars author_name)).

(** [_normalize_author_name_with_comma]: [name[1]], when there is one and it
    passes the check, loses its spaces; the pieces are joined again. *)
Definition _normalize_author_name_with_comma (author_name : string) : string :=
  let name := PyStr.split "," author_name in
  let name :=
    match name with
    | n0 :: n1 :: rest =>
        if _verify_author_name_initials n1
        then n0 :: PyStr.remove_char " " n1 :: rest
        else name
    | _ => name
    end in
  PyStr.join ", " name.

(** [make_author(full_name, affiliations, supervisor)] with every argument
    given.  The affiliations are appended as ONE object, the generator of the
    [{'value': affiliation}] wrappers; nothing iterates it here. *)
Definition make_author (full_name : string) (affiliations : option (list value))
    (supervisor : value) : dict :=
  let author := [] in
  let author :=
    dict_set "full_name" (VStr (_normalize_author_name_with_comma full_name)) author in
  let author :=
    match affiliations with
    | Some affs =>
        let author := dict_ensure "affiliations" (VList []) author in
        match dict_get "affiliations" author with
        | Some (VList l) =>
            dict_set "affiliations"
              (VList (l ++ [VGen (map (fun a => entry [("value", a)]) affs)]))
              author
        | _ => author
        end
    | None => author
    end in
  if is_not_None supervisor
  then dict_set "inspire_roles" (VList [VStr "supervisor"]) author
  else author.

(** The defaults of the signature: [affiliations=None, supervisor=False].
    An argument the caller leaves out is [None] here. *)
Definition make_author_call (full_name : string)
    (affiliations : option (list value)) (supervisor : option value) : dict :=
  make_author full_name affiliations
    (match supervisor with Some v => v | None => VBool false end).

Definition add_inspire_categories (subject_terms : list value) (src : value)
    : M unit :=
  _ensure_field "inspire_categories" (VList []) ;;
  s <- _get_source src ;;
  obj_extend "inspire_categories"
    (map (fun category => entry [("term", category); ("source", s)]) subject_terms).

Definition add_private_notes (private_notes : value) (src : value) : M unit :=
  _ensure_field "_private_notes" (VList []) ;;
  s <- _get_source src ;;
  obj_append "_private_notes" (entry [("value", private_notes); ("source", s)]).

(** The arguments of [add_publication_info], in the order of the signature. *)
Record publication_args : Type := mkPublication {
  year : value;
  cnum : value;
  artid : value;
  page_end : value;
  page_start : value;
  journal_issue : value;
  journal_title : value;
  journal_volume : value
}.

(** Every argument left at its default [None]. *)
Definition no_publication_args : publication_args :=
  mkPublication VNone VNone VNone VNone VNone VNone VNone VNone.

(** [if locals()[key] is not None: item[key] = locals()[key]] *)
Definition set_supplied (item : dict) (kv : string * value) : dict :=
  if is_not_None (snd kv) then dict_set (fst kv) (snd kv) item else item.

Definition publication_locals (a : publication_args) : list (string * value) :=
  [("cnum", cnum a); ("artid", artid a); ("page_end", page_end a);
   ("page_start", page_start a); ("journal_issue", journal_issue a);
   ("journal_title", journal_title a); ("journal_volume", journal_volume a);
   ("year", year a)].

(** The [try] block: [int(page_end) - int(page_start) + 1], with
    [TypeError] and [ValueError] caught. *)
Definition with_number_of_pages (a : publication_args) (item : dict)
    : outcome dict :=
  if truthy (page_start a) && truthy (page_end a) then
    let attempt :=
      match py_int (page_end a) with
      | Returns e =>
          match py_int (page_start a) with
          | Returns s => Returns (dict_set "number_of_pages" (VInt (e - s + 1)) item)
          | Raises x => Raises x
          end
      | Raises x => Raises x
      end in
    match attempt with
    | Returns item' => Returns item'
    | Raises TypeError | Raises ValueError => Returns item
    | Raises x => Raises x
    end
  else Returns item.

(** [publication_item] as it is appended. *)
Definition publication_item (a : publication_args) : outcome dict :=
  with_number_of_pages a (fold_left set_supplied (publication_locals a) []).

(** [[key in container for key in keys]] *)
Fixpoint keys_in (keys : list string) (container : value) : outcome (list bool) :=
  match keys with
  | [] => Returns []
  | k :: ks =>
      match py_in k container with
      | Returns x =>
          match keys_in ks container with
          | Returns xs => Returns (x :: xs)
          | Raises e => Raises e
          end
      | Raises e => Raises e
      end
  end.

Definition py_all (l : list bool) : bool := forallb (fun x => x) l.
Definition py_any (l : list bool) : bool := existsb (fun x => x) l.

Definition add_publication_info (a : publication_args) : M unit :=
  _ensure_field "publication_info" (VList []) ;;
  item <- lift (publication_item a) ;;
  obj_append "publication_info" (VDict item) ;;
  infos <- obj_getitem "publication_info" ;;
  pub <- lift (keys_in ["year"; "journal_issue"; "journal_volume"] infos) ;;
  infos' <- obj_getitem "publication_info" ;;
  page <- lift (keys_in ["page_start"; "page_end"; "artid"] infos') ;;
  let has_pub_info := py_all pub in
  let has_page_or_artid := py_any page in
  if has_pub_info && has_page_or_artid
  then obj_setitem "citeable" (VBool true)
  else ret tt.

Definition add_imprint_date (imprint_date : value) : M unit :=
  _ensure_field "imprints" (VList []) ;;
  obj_append "imprints" (entry [("date", imprint_date)]).

(** The default here is [{}], a dictionary, and the next line calls
    [append] on it. *)
Definition add_preprint_date (preprint_date : value) : M unit :=
  _ensure_field "preprint_date" (VDict []) ;;
  obj_append "preprint_date" (entry [("date", preprint_date)]).

(** [thesis_item[key] = locals()[key].lower()] for a supplied string *)
Definition set_lowered (item : dict) (kv : string * option string) : dict :=
  match snd kv with
  | Some s => dict_set (fst kv) (VStr (PyStr.lower s)) item
  | None => item
  end.

Definition add_thesis (defense_date degree_type : option string)
    (institution : value) (date : option string) : M unit :=
  _ensure_field "thesis_info" (VDict []) ;;
  let thesis_item :=
    fold_left set_lowered
      [("defense_date", defense_date); ("degree_type", degree_type); ("date", date)]
      [] in
  let thesis_item :=
    if is_not_None institution
    then dict_set "institutions" (VList [entry [("name", institution)]]) thesis_item
    else thesis_item in
  obj_setitem "thesis_info" (VDict thesis_item).

Definition add_accelerator_experiment (experiment : value) : M unit :=
  _ensure_field "accelerator_experiments" (VList []) ;;
  obj_append "accelerator_experiments" (entry [("legacy_name", experiment)]).

Definition add_language (language : value) : M unit :=
  _ensure_field "languages" (VList []) ;;
  obj_append "languages" language.

Definition add_license_url (license_url : value) : M unit :=
  _ensure_field "license" (VList []) ;;
  obj_append "license" (entry [("url", license_url)]).

Definition add_public_note (public_notes : value) (src : value) : M unit :=
  _ensure_field "public_notes" (VList []) ;;
  s <- _get_source src ;;
  obj_append "public_notes" (entry [("value", public_notes); ("source", s)]).

Definition add_title (title : value) (src : value) : M unit :=
  _ensure_field "titles" (VList []) ;;
  s <- _get_source src ;;
  obj_append "titles" (entry [("title", title); ("source", s)]).

Definition add_title_translation (title language : value) (src : value) : M unit :=
  _ensure_field "title_translations" (VList []) ;;
  s <- _get_source src ;;
  obj_append "title_translations"
    (entry [("title", title); ("language", language); ("source", s)]).

Definition add_url (url : value) : M unit :=
  _ensure_field "urls" (VList []) ;;
  obj_append "urls" (entry [("value", url)]).

(** [report_number.get('report_number', '')] *)
Definition report_number_of (report_number : dict) : value :=
  match dict_get "report_number" report_number with
  | Some v => v
  | None => VStr ""
  end.

Definition add_report_numbers (report_numbers : list dict) (src : value) : M unit :=
  _ensure_field "report_numbers" (VList []) ;;
  s <- _get_source src ;;
  obj_extend "report_numbers"
    (map (fun report_number =>
            entry [("value", report_number_of report_number); ("source", s)])
         report_numbers).

Definition add_collaboration (collaboration : value) : M unit :=
  _ensure_field "collaborations" (VList []) ;;
  obj_append "collaborations" (entry [("value", collaboration)]).

Definition add_acquisition_source (submission_number : Z)
    (email src method orcid : value) : M unit :=
  _ensure_field "acquisition_source" (VDict []) ;;
  let acquisition_source := [] in
  let acquisition_source :=
    dict_set "submission_number" (VStr (PyStr.of_Z submission_number))
      acquisition_source in
  s <- _get_source src ;;
  let acquisition_source := dict_set "source" s acquisition_source in
  let acquisition_source :=
    fold_left set_supplied
      [("email", email); ("method", method); ("orcid", orcid)]
      acquisition_source in
  obj_setitem "acquisition_source" (VDict acquisition_source).

Definition add_document_type (document_type : value) : M unit :=
  _ensure_field "document_type" (VList []) ;;
  obj_append "document_type" document_type.

(** ** Build sessions *)

(** One call of a builder method, with its arguments. *)
Inductive call : Type :=
| AddAbstract (abstract : string) (src : value)
| AddArxivEprint (arxiv_id arxiv_categories : value)
| AddDoi (doi : string) (src : value)
| AddAuthor (author : value)
| MakeAuthor (full_name : string) (affiliations : option (list value))
    (supervisor : option value)
| AddInspireCategories (subject_terms : list value) (src : value)
| AddPrivateNotes (private_notes : value) (src : value)
| AddPublicationInfo (a : publication_args)
| AddImprintDate (imprint_date : value)
| AddPreprintDate (preprint_date : value)
| AddThesis (defense_date degree_type : option string) (institution : value)
    (date : option string)
| AddAcceleratorExperiment (experiment : value)
| AddLanguage (language : value)
| AddLicenseUrl (license_url : value)
| AddPublicNote (public_notes : value) (src : value)
| AddTitle (title : value) (src : value)
| AddTitleTranslation (title language : value) (src : value)
| AddUrl (url : value)
| AddReportNumbers (report_numbers : list dict) (src : value)
| AddCollaboration (collaboration : value)
| AddAcquisitionSource (submission_number : Z) (email src method orcid : value)
| AddDocumentType (document_type : value).

Definition perform (c : call) : M unit :=
  match c with
  | AddAbstract abstract src => add_abstract abstract src
  | AddArxivEprint arxiv_id arxiv_categories =>
      add_arxiv_eprint arxiv_id arxiv_categories
  | AddDoi doi src => add_doi doi src
  | AddAuthor author => add_author author
  | MakeAuthor full_name affiliations supervisor =>
      _ <- ret (make_author_call full_name affiliations supervisor) ;; ret tt
  | AddInspireCategories subject_terms src =>
      add_inspire_categories subject_terms src
  | AddPrivateNotes private_notes src => add_private_notes private_notes src
  | AddPublicationInfo a => add_publication_info a
  | AddImprintDate imprint_date => add_imprint_date imprint_date
  | AddPreprintDate preprint_date => add_preprint_date preprint_date
  | AddThesis defense_date degree_type institution date =>
      add_thesis defense_date degree_type institution date
  | AddAcceleratorExperiment experiment => add_accelerator_experiment experiment
  | AddLanguage language => add_language language
  | AddLicenseUrl license_url => add_license_url license_url
  | AddPublicNote public_notes src => add_public_note public_notes src
  | AddTitle title src => add_title title src
  | AddTitleTranslation title language src =>
      add_title_translation title language src
  | AddUrl url => add_url url
  | AddReportNumbers report_numbers src => add_report_numbers report_numbers src
  | AddCollaboration collaboration => add_collaboration collaboration
  | AddAcquisitionSource submission_number email src method orcid =>
      add_acquisition_source submission_number email src method orcid
  | AddDocumentType document_type => add_document_type document_type
  end.

(** A build session: the calls one after the other on the same builder.  A
    call that raises leaves the record as it was when it raised, and the
    caller goes on. *)
Definition session (cs : list call) (b : LiteratureBuilder) : LiteratureBuilder :=
  fold_left (fun b c => exec (perform c) b) cs b.

(** The fields whose container is created as [[]]. *)
Definition sequence_fields : list string :=
  ["abstracts"; "arxiv_eprints"; "dois"; "authors"; "inspire_categories";
   "_private_notes"; "publication_info"; "imprints"; "accelerator_experiments";
   "languages"; "license"; "public_notes"; "titles"; "title_translations";
   "urls"; "report_numbers"; "collaborations"; "document_type"].

(** The entries of a sequence field, none while the field is absent. *)
Definition entries (f : string) (b : LiteratureBuilder) : list value :=
  match dict_get f (obj b) with
  | Some (VList l) => l
  | _ => []
  end.

(** [record['citeable'] == True] *)
Definition citeable (b : LiteratureBuilder) : Prop :=
  dict_get "citeable" (obj b) = Some (VBool true).

(** ** Notions the statements use *)

(** [keeps P m]: running [m] from a builder with [P] leaves one with [P],
    whether [m] returns or raises. *)
Definition keeps {A} (P : LiteratureBuilder -> Prop) (m : M A) : Prop :=
  forall b, P b -> P (exec m b).

(** The record after [ensure; append] on a sequence field: the field holds
    its former entries followed by the new ones. *)
Definition grow (g : string) (xs : list value) (d : dict) : dict :=
  match dict_get g d with
  | None => dict_set g (VList xs) d
  | Some (VList l) => dict_set g (VList (l ++ xs)) d
  | Some _ => d
  end.

Definition listlike (o : option value) : bool :=
  match o with
  | None | Some (VList _) => true
  | Some _ => false
  end.

(** The footprint of a call on a well-formed record: it appends entries to
    one sequence field (and may set [citeable]), overwrites one nested
    object, only creates a default, or leaves the record alone. *)
Inductive footprint : Type :=
| Appends (g : string) (xs : list value) (cite : bool)
| Overwrites (g : string) (v : value)
| Declines (g : string) (v : value)
| Untouched.

Definition apply_footprint (fp : footprint) (d : dict) : dict :=
  match fp with
  | Appends g xs cite =>
      if cite then dict_set "citeable" (VBool true) (grow g xs d) else grow g xs d
  | Overwrites g v => dict_set g v d
  | Declines g v => dict_ensure g v d
  | Untouched => d
  end.

Definition not_str (v : value) : bool :=
  match v with VStr _ => false | _ => true end.

Definition footprint_ok (fp : footprint) : Prop :=
  match fp with
  | Appends g xs _ =>
      In g sequence_fields /\
      (g = "publication_info" -> forallb not_str xs = true)
  | Overwrites g _ => g = "thesis_info" \/ g = "acquisition_source"
  | Declines g v => g = "preprint_date" /\ v = VDict []
  | Untouched => True
  end.

(** The records a session can reach: sequence fields hold lists, the
    entries of [publication_info] are not strings, and [preprint_date], once
    created, is the empty dictionary. *)
Definition wf (d : dict) : Prop :=
  (forall f, In f sequence_fields -> listlike (dict_get f d) = true) /\
  (forall l, dict_get "publication_info" d = Some (VList l) ->
             forallb not_str l = true) /\
  (dict_get "preprint_date" d = None \/
   dict_get "preprint_date" d = Some (VDict [])).

(** What one call, made on a fresh builder, puts into field [f]. *)
Definition contributed (src : value) (f : string) (c : call) : list value :=
  entries f (exec (perform c) (init src)).

(** The call creates field [f] on a fresh builder. *)
Definition touches (src : value) (f : string) (c : call) : bool :=
  dict_mem f (obj (exec (perform c) (init src))).

Definition reachable (src : value) (b : LiteratureBuilder) : Prop :=
  wf (obj b) /\ source b = src.

(** Key [k] is present in some entry of the accumulated sequence. *)
Definition key_present (k : string) (l : list value) : bool :=
  existsb (fun e => match e with VDict d => dict_mem k d | _ => false end) l.

(** [c] does not occur in [l]. *)
Definition free_of (c : ascii) (l : list ascii) : bool :=
  forallb (fun x => negb (Ascii.eqb x c)) l.

(** [l] is the literal [lit], letters in either case. *)
Definition ci_equal (l : list ascii) (lit : string) : Prop :=
  map PyStr.lower_char l = map PyStr.lower_char (PyStr.chars lit).

(** The characters of a DOI suffix: a word character or one of
    [- _ : ; ( ) / < >]; inside the suffix, the period as well. *)
Definition doi_tail_char (c : ascii) : bool :=
  re_word c || existsb (Ascii.eqb c) (PyStr.chars "-_:;()/<>").

Definition doi_body_char (c : ascii) : bool :=
  doi_tail_char c || Ascii.eqb c ".".

(** [doi], [doi:], [(doi)], [(doi) :] and the like. *)
Definition doi_label_shape (p : list ascii) : Prop :=
  exists op name sp1 cl co sp2,
    p = op ++ name ++ sp1 ++ cl ++ co ++ sp2 /\
    (op = [] \/ ci_equal op "(") /\
    ci_equal name "doi" /\
    forallb re_space sp1 = true /\
    (cl = [] \/ ci_equal cl ")") /\
    (co = [] \/ ci_equal co ":") /\
    forallb re_space sp2 = true.

(** [http://doi.org/], [https://dx.doi.org/] and the like. *)
Definition doi_url_shape (p : list ascii) : Prop :=
  exists http s colon dx host,
    p = http ++ s ++ colon ++ dx ++ host /\
    ci_equal http "http" /\
    (s = [] \/ ci_equal s "s") /\
    ci_equal colon "://" /\
    (dx = [] \/ ci_equal dx "dx.") /\
    ci_equal host "doi.org/".

(** [10.], four digits, [/] or [%2f], then at least two suffix characters,
    the last of which is not a period. *)
Definition doi_core_shape (l : list ascii) : Prop :=
  exists ten digits sep body last,
    l = ten ++ digits ++ sep ++ body ++ [last] /\
    ci_equal ten "10." /\
    length digits = 4 /\ forallb re_digit digits = true /\
    (ci_equal sep "/" \/ ci_equal sep "%2f") /\
    body <> [] /\ forallb doi_body_char body = true /\
    doi_tail_char last = true.

(** The string starts with an optional prefix and a DOI; anything may
    follow. *)
Definition has_doi_shape (doi : string) : Prop :=
  exists pre core rest,
    PyStr.chars doi = pre ++ core ++ rest /\
    (pre = [] \/ doi_label_shape pre \/ doi_url_shape pre) /\
    doi_core_shape core.

(** The pattern as the specification words it: after the optional prefix,
    [10.], four digits, [/] or [%2f], and a non-empty suffix of word or
    punctuation characters that does not end in a period. *)
Definition doi_core_as_specified (l : list ascii) : Prop :=
  exists ten digits sep suffix,
    l = ten ++ digits ++ sep ++ suffix /\
    ci_equal ten "10." /\
    length digits = 4 /\ forallb re_digit digits = true /\
    (ci_equal sep "/" \/ ci_equal sep "%2f") /\
    suffix <> [] /\ forallb doi_body_char suffix = true /\
    (forall body, suffix <> body ++ ["."%char]).

Definition has_doi_shape_as_specified (doi : string) : Prop :=
  exists pre core rest,
    PyStr.chars doi = pre ++ core ++ rest /\
    (pre = [] \/ doi_label_shape pre \/ doi_url_shape pre) /\
    doi_core_as_specified core.

End Builder.

(** ** Validation *)

(** [validate(data, schema_name)].  The schema store and the JSON-Schema
    validator are collaborators outside this module: [load_schema] answers
    a schema or the exception it raises, [jsonschema_validate] (with the
    resolver it builds from the schema) answers [None] or the exception it
    raises.  [SchemaKeyNotFound] is the one exception [validate] raises
    itself. *)
Inductive failure (E : Type) : Type :=
| SchemaKeyNotFound (data : dict)
| Collaborator (e : E).
Arguments SchemaKeyNotFound {E} data.
Arguments Collaborator {E} e.

Section Validate.

Variables schema E : Type.
Variable load_schema : value -> schema + E.
Variable jsonschema_validate : dict -> schema -> option E.

(** [None] is the normal return, [Some f] the exception raised. *)
Definition validate (data : dict) (schema_name : value) : option (failure E) :=
  let named :=
    if is_not_None schema_name then inl schema_name
    else if negb (dict_mem "$schema" data) then inr (SchemaKeyNotFound data)
    else match dict_get "$schema" data with
         | Some name => inl name
         | None => inr (SchemaKeyNotFound data)
         end in
  match named with
  | inr f => Some f
  | inl name =>
      match load_schema name with
      | inr e => Some (Collaborator e)
      | inl sch => option_map Collaborator (jsonschema_validate data sch)
      end
  end.

(** [self.validate_object()] *)
Definition validate_object (b : LiteratureBuilder) : option (failure E) :=
  validate (obj b) (VStr "hep").

End Validate.

Arguments validate {schema E} load_schema jsonschema_validate data schema_name.
Arguments validate_object {schema E} load_schema jsonschema_validate b.

(** ** More notions for the statements *)

Section Notions.

Context {py : Interpreter}.

(** Every key a builder method writes. *)
Definition vocabulary : list string :=
  sequence_fields ++
  ["citeable"; "thesis_info"; "acquisition_source"; "preprint_date"].

(** The calls that make a record citeable: an arXiv e-print, or a DOI the
    pattern accepts. *)
Definition eprint_or_accepted_doi (c : call) : bool :=
  match c with
  | AddArxivEprint _ _ => true
  | AddDoi doi _ => _doi_normalization doi
  | _ => false
  end.

(** The call is [add_preprint_date]. *)
Definition is_preprint_date (c : call) : bool :=
  match c with
  | AddPreprintDate _ => true
  | _ => false
  end.

(** The source an entry is credited to: the one given with the call, or
    the builder's. *)
Definition resolved_source (default src : value) : value :=
  if is_not_None src then src else default.

(** The entry a publication call is specified to add: the arguments that
    are not [None], under their names and in the order the method visits
    them, then [number_of_pages] when both page bounds are true values that
    [int] converts. *)
Definition specified_publication_item (a : publication_args) : dict :=
  filter (fun kv => is_not_None (snd kv)) (publication_locals a) ++
  (if truthy (page_start a) && truthy (page_end a)
   then match py_int (page_end a), py_int (page_start a) with
        | Returns last, Returns first =>
            [("number_of_pages", VInt (last - first + 1))]
        | _, _ => []
        end
   else []).

(** What each call is specified to add: the sequence field it adds to and
    the entries, in order; [None] for a call that adds to no sequence
    field.  The builder's default source is [default]. *)
Definition specified_addition (default : value) (c : call)
    : option (string * list value) :=
  match c with
  | AddAbstract abstract src =>
      Some ("abstracts",
            [VDict [("value", VStr (PyStr.strip abstract));
                    ("source", resolved_source default src)]])
  | AddArxivEprint arxiv_id arxiv_categories =>
      Some ("arxiv_eprints",
            [VDict [("value", arxiv_id); ("categories", arxiv_categories)]])
  | AddDoi doi src =>
      Some ("dois",
            if _doi_normalization doi
            then [VDict [("value", VStr doi);
                         ("source", resolved_source default src)]]
            else [])
  | AddAuthor author => Some ("authors", [author])
  | MakeAuthor _ _ _ => None
  | AddInspireCategories subject_terms src =>
      Some ("inspire_categories",
            map (fun term => VDict [("term", term);
                                    ("source", resolved_source default src)])
              subject_terms)
  | AddPrivateNotes private_notes src =>
      Some ("_private_notes",
            [VDict [("value", private_notes);
                    ("source", resolved_source default src)]])
  | AddPublicationInfo a =>
      Some ("publication_info", [VDict (specified_publication_item a)])
  | AddImprintDate imprint_date =>
      Some ("imprints", [VDict [("date", imprint_date)]])
  | AddPreprintDate _ => None
  | AddThesis _ _ _ _ => None
  | AddAcceleratorExperiment experiment =>
      Some ("accelerator_experiments", [VDict [("legacy_name", experiment)]])
  | AddLanguage language => Some ("languages", [language])
  | AddLicenseUrl license_url => Some ("license", [VDict [("url", license_url)]])
  | AddPublicNote public_notes src =>
      Some ("public_notes",
            [VDict [("value", public_notes);
                    ("source", resolved_source default src)]])
  | AddTitle title src =>
      Some ("titles",
            [VDict [("title", title); ("source", resolved_source default src)]])
  | AddTitleTranslation title language src =>
      Some ("title_translations",
            [VDict [("title", title); ("language", language);
                    ("source", resolved_source default src)]])
  | AddUrl url => Some ("urls", [VDict [("value", url)]])
  | AddReportNumbers report_numbers src =>
      Some ("report_numbers",
            map (fun report_number =>
                   VDict [("value",
                           match dict_get "report_number" report_number with
                           | Some v => v
                           | None => VStr ""
                           end);
                          ("source", resolved_source default src)])
              report_numbers)
  | AddCollaboration collaboration =>
      Some ("collaborations", [VDict [("value", collaboration)]])
  | AddAcquisitionSource _ _ _ _ _ => None
  | AddDocumentType document_type => Some ("document_type", [document_type])
  end.

(** The call is specified to add to field [f] (the field is created even
    when the entries are none). *)
Definition adds_to (default : value) (f : string) (c : call) : bool :=
  match specified_addition default c with
  | Some (g, _) => String.eqb f g
  | None => false
  end.

(** The entries the call is specified to add to field [f]. *)
Definition added_to (default : value) (f : string) (c : call) : list value :=
  match specified_addition default c with
  | Some (g, xs) => if String.eqb f g then xs else []
  | None => []
  end.

End Notions.

(** ** The Python 2 interpreter, on byte strings *)

(** The tables of a Python 2 byte pattern and of Python 2 [int]: the
    concrete runs below are made with them. *)
Lemma ascii_word_letter (x : ascii) :
  PyStr.is_upper x || PyStr.is_lower x = true -> PyStr.is_word x = true.
Proof.
  unfold PyStr.is_word. intros H. apply orb_prop in H as [-> | ->];
    rewrite ?orb_true_r; reflexivity.
Qed.

Lemma ascii_digit_letter (x : ascii) :
  PyStr.is_upper x || PyStr.is_lower x = true -> PyStr.is_digit x = false.
Proof.
  destruct x as [[] [] [] [] [] [] [] []]; vm_compute; intros H;
    reflexivity || discriminate H.
Qed.

Lemma ascii_space_letter (x : ascii) :
  PyStr.is_upper x || PyStr.is_lower x = true -> PyStr.is_space x = false.
Proof.
  destruct x as [[] [] [] [] [] [] [] []]; vm_compute; intros H;
    reflexivity || discriminate H.
Qed.

#[export] Instance python2_bytes : Interpreter := {|
  re_word := PyStr.is_word;
  re_digit := PyStr.is_digit;
  re_space := PyStr.is_space;
  int_of_str := PyStr.parse_int;
  re_word_letter := ascii_word_letter;
  re_digit_letter := ascii_digit_letter;
  re_space_letter := ascii_space_letter;
  re_digit_ascii := fun x H => H;
  int_of_empty := eq_refl
|}.

(** * Properties *)

Section Properties.

Context {py : Interpreter}.

(** ** Dictionaries *)

Lemma dict_get_set (f g : string) (v : value) (d : dict) :
  dict_get f (dict_set g v d) = if String.eqb f g then Some v else dict_get f d.
Proof.
  induction d as [|[k w] d IH]; simpl.
  - destruct (String.eqb f g); reflexivity.
  - destruct (String.eqb_spec g k) as [->|Hgk]; simpl.
    + destruct (String.eqb f k); reflexivity.
    + rewrite IH. destruct (String.eqb_spec f k) as [->|Hfk]; [|reflexivity].
      destruct (String.eqb_spec k g) as [->|]; [contradiction|reflexivity].
Qed.

Lemma dict_get_ensure (f g : string) (v : value) (d : dict) :
  dict_get f (dict_ensure g v d) =
  if String.eqb f g
  then match dict_get g d with Some w => Some w | None => Some v end
  else dict_get f d.
Proof.
  unfold dict_ensure, dict_mem.
  destruct (dict_get g d) as [w|] eqn:E.
  - destruct (String.eqb_spec f g) as [->|]; auto.
  - apply dict_get_set.
Qed.

Lemma dict_set_absent (k : string) (v : value) (d : dict) :
  dict_get k d = None -> dict_set k v d = d ++ [(k, v)].
Proof.
  induction d as [|[k' w] d IH]; simpl; [reflexivity|].
  destruct (String.eqb k k'); [discriminate|].
  intros H. now rewrite IH.
Qed.

Lemma dict_set_set (k : string) (v w : value) (d : dict) :
  dict_set k v (dict_set k w d) = dict_set k v d.
Proof.
  induction d as [|[k' u] d IH]; cbn.
  - now rewrite String.eqb_refl.
  - destruct (String.eqb k k') eqn:E; cbn; rewrite E; [reflexivity|].
    now rewrite IH.
Qed.

Lemma dict_set_same (k : string) (v : value) (d : dict) :
  dict_get k d = Some v -> dict_set k v d = d.
Proof.
  induction d as [|[k' u] d IH]; cbn; [discriminate|].
  destruct (String.eqb k k'); intros H.
  - congruence.
  - now rewrite IH.
Qed.

Lemma dict_ensure_present (k : string) (v : value) (d : dict) :
  dict_get k d <> None -> dict_ensure k v d = d.
Proof.
  unfold dict_ensure, dict_mem. destruct (dict_get k d); congruence.
Qed.

Lemma with_obj_same (b : LiteratureBuilder) : with_obj (obj b) b = b.
Proof. now destruct b. Qed.

(** ** What survives every call: the pieces of a method body *)

Section Keeps.

Variable P : LiteratureBuilder -> Prop.

Lemma keeps_ret A (a : A) : keeps P (ret a).
Proof. intros b H; exact H. Qed.

Lemma keeps_raise A (e : exn) : keeps P (@raise A e).
Proof. intros b H; exact H. Qed.

Lemma keeps_lift A (o : outcome A) : keeps P (lift o).
Proof. intros b H; exact H. Qed.

Lemma keeps_get_source (src : value) : keeps P (_get_source src).
Proof. intros b H; exact H. Qed.

Lemma keeps_getitem (f : string) : keeps P (obj_getitem f).
Proof.
  intros b H. unfold exec, obj_getitem. now destruct (dict_get f (obj b)).
Qed.

Lemma keeps_bind A B (m : M A) (k : A -> M B) :
  keeps P m -> (forall a, keeps P (k a)) -> keeps P (bind m k).
Proof.
  intros Hm Hk b H. specialize (Hm b H).
  unfold exec, bind in *. destruct (m b) as [[a|e] b']; simpl in *.
  - now apply Hk.
  - exact Hm.
Qed.

(** The writes are what a property has to survive. *)
Hypothesis P_write :
  forall b f v, P b -> f <> "citeable" -> P (with_obj (dict_set f v (obj b)) b).
Hypothesis P_citeable :
  forall b, P b -> P (with_obj (dict_set "citeable" (VBool true) (obj b)) b).

Lemma keeps_setitem (f : string) (v : value) :
  f <> "citeable" -> keeps P (obj_setitem f v).
Proof. intros Hf b H. now apply P_write. Qed.

Lemma keeps_set_citeable : keeps P (obj_setitem "citeable" (VBool true)).
Proof. intros b H. now apply P_citeable. Qed.

Lemma keeps_ensure (f : string) (v : value) :
  f <> "citeable" -> keeps P (_ensure_field f v).
Proof.
  intros Hf b H. unfold exec, _ensure_field, dict_ensure; simpl.
  destruct (dict_mem f (obj b)).
  - now rewrite with_obj_same.
  - now apply P_write.
Qed.

Lemma keeps_append (f : string) (x : value) :
  f <> "citeable" -> keeps P (obj_append f x).
Proof.
  intros Hf. apply keeps_bind; [apply keeps_getitem|].
  intros [| | | |l| |]; try apply keeps_raise. now apply keeps_setitem.
Qed.

Lemma keeps_extend (f : string) (xs : list value) :
  f <> "citeable" -> keeps P (obj_extend f xs).
Proof.
  intros Hf. apply keeps_bind; [apply keeps_getitem|].
  intros [| | | |l| |]; try apply keeps_raise. now apply keeps_setitem.
Qed.

(** Every method is made of these pieces and writes, besides its own
    field, nothing but [citeable = True]. *)
Lemma keeps_perform (c : call) : keeps P (perform c).
Proof.
  destruct c; cbn [perform];
    unfold add_abstract, add_arxiv_eprint, add_doi, add_author,
      add_inspire_categories, add_private_notes, add_publication_info,
      add_imprint_date, add_preprint_date, add_thesis,
      add_accelerator_experiment, add_language, add_license_url,
      add_public_note, add_title, add_title_translation, add_url,
      add_report_numbers, add_collaboration, add_acquisition_source,
      add_document_type;
    repeat first
      [ apply keeps_ret | apply keeps_lift | apply keeps_get_source
      | apply keeps_getitem | apply keeps_set_citeable
      | apply keeps_ensure; discriminate
      | apply keeps_append; discriminate
      | apply keeps_extend; discriminate
      | apply keeps_setitem; discriminate
      | apply keeps_bind; [|intros ?]
      | match goal with |- keeps _ (if ?c then _ else _) => destruct c end ].
Qed.

End Keeps.

(** ** What a call does to the record *)

Lemma dict_get_grow (f g : string) (xs : list value) (d : dict) :
  listlike (dict_get g d) = true ->
  dict_get f (grow g xs d) =
  if String.eqb f g
  then Some (VList (match dict_get g d with Some (VList l) => l | _ => [] end ++ xs))
  else dict_get f d.
Proof.
  unfold grow. intros H.
  destruct (dict_get g d) as [[| | | |l| |]|] eqn:E; try discriminate;
    now rewrite dict_get_set.
Qed.

Lemma run_ensure_append (g : string) (x : value) (b : LiteratureBuilder) :
  (_ensure_field g (VList []) ;; obj_append g x) b =
  if listlike (dict_get g (obj b))
  then (Returns tt, with_obj (grow g [x] (obj b)) b)
  else (Raises AttributeError, b).
Proof.
  unfold bind, _ensure_field, obj_append, bind, obj_getitem, grow. cbn [obj with_obj].
  rewrite dict_get_ensure, String.eqb_refl.
  destruct (dict_get g (obj b)) as [[| | | |l| |]|] eqn:E; cbn;
    rewrite ?(dict_ensure_present g (VList []) (obj b)) by congruence;
    rewrite ?with_obj_same; try reflexivity.
  unfold dict_ensure, dict_mem. rewrite E.
  unfold obj_setitem, with_obj; cbn. f_equal. f_equal.
  apply dict_set_set.
Qed.

Lemma run_ensure_extend (g : string) (xs : list value) (b : LiteratureBuilder) :
  (_ensure_field g (VList []) ;; obj_extend g xs) b =
  if listlike (dict_get g (obj b))
  then (Returns tt, with_obj (grow g xs (obj b)) b)
  else (Raises AttributeError, b).
Proof.
  unfold bind, _ensure_field, obj_extend, bind, obj_getitem, grow. cbn [obj with_obj].
  rewrite dict_get_ensure, String.eqb_refl.
  destruct (dict_get g (obj b)) as [[| | | |l| |]|] eqn:E; cbn;
    rewrite ?(dict_ensure_present g (VList []) (obj b)) by congruence;
    rewrite ?with_obj_same; try reflexivity.
  unfold dict_ensure, dict_mem. rewrite E.
  unfold obj_setitem, with_obj; cbn. f_equal. f_equal.
  apply dict_set_set.
Qed.

Lemma dict_set_ensure (k : string) (v w : value) (d : dict) :
  dict_set k v (dict_ensure k w d) = dict_set k v d.
Proof.
  unfold dict_ensure. destruct (dict_mem k d); [reflexivity|apply dict_set_set].
Qed.

Lemma grow_nil (g : string) (d : dict) :
  listlike (dict_get g d) = true -> grow g [] d = dict_ensure g (VList []) d.
Proof.
  unfold grow, dict_ensure, dict_mem.
  destruct (dict_get g d) as [[| | | |l| |]|] eqn:E; try discriminate; intros _.
  - rewrite app_nil_r. now apply dict_set_same.
  - reflexivity.
Qed.

Lemma wf_empty : wf [].
Proof.
  split; [|split]; [reflexivity|discriminate|now left].
Qed.

Lemma sequence_field_cases (f : string) :
  In f sequence_fields ->
  f <> "citeable" /\ f <> "thesis_info" /\ f <> "acquisition_source" /\
  f <> "preprint_date".
Proof.
  intros H. repeat split; intros ->;
    repeat (destruct H as [H|H]; [discriminate|]); exact H.
Qed.

Lemma eqb_neq_false (f g : string) : f <> g -> String.eqb f g = false.
Proof. intros H. now apply String.eqb_neq. Qed.

(** A sequence field after a call with footprint [fp]. *)
Lemma dict_get_apply_footprint (fp : footprint) (d : dict) (f : string) :
  wf d -> footprint_ok fp -> In f sequence_fields ->
  dict_get f (apply_footprint fp d) =
  match fp with
  | Appends g xs _ =>
      if String.eqb f g
      then Some (VList (match dict_get g d with Some (VList l) => l | _ => [] end ++ xs))
      else dict_get f d
  | _ => dict_get f d
  end.
Proof.
  intros (Hseq & _ & _) Hok Hf.
  destruct (sequence_field_cases f Hf) as (Hc & Ht & Ha & Hp).
  destruct fp as [g xs cite|g v|g v|]; cbn in *.
  - destruct Hok as [Hg _].
    assert (E : dict_get f (grow g xs d) =
                if String.eqb f g
                then Some (VList (match dict_get g d with
                                  | Some (VList l) => l | _ => [] end ++ xs))
                else dict_get f d)
      by (apply dict_get_grow; auto).
    destruct cite; [|exact E].
    rewrite dict_get_set, eqb_neq_false by assumption. exact E.
  - rewrite dict_get_set.
    destruct Hok as [-> | ->]; now rewrite eqb_neq_false.
  - destruct Hok as [-> ->]. rewrite dict_get_ensure. now rewrite eqb_neq_false.
  - reflexivity.
Qed.

Lemma wf_apply_footprint (fp : footprint) (d : dict) :
  wf d -> footprint_ok fp -> wf (apply_footprint fp d).
Proof.
  intros Hwf Hok. pose proof Hwf as (Hseq & Hpub & Hpre).
  split; [|split].
  - intros f Hf. rewrite dict_get_apply_footprint by assumption.
    destruct fp as [g xs cite| | |]; auto.
    destruct (String.eqb f g); auto.
  - intros l. rewrite dict_get_apply_footprint by (cbn; auto 10).
    destruct fp as [g xs cite| | |]; auto.
    destruct (String.eqb_spec "publication_info" g) as [<-|]; auto.
    intros [= <-]. destruct Hok as [_ Hxs].
    rewrite forallb_app, Hxs by reflexivity.
    destruct (dict_get "publication_info" d) as [[| | | |l'| |]|] eqn:E;
      cbn; auto.
    now rewrite (Hpub l').
  - destruct fp as [g xs cite|g v|g v|]; cbn in *; auto.
    + destruct Hok as [Hg _].
      destruct (sequence_field_cases g Hg) as (_ & _ & _ & Hp).
      assert (E : dict_get "preprint_date" (grow g xs d) =
                  dict_get "preprint_date" d).
      { rewrite dict_get_grow by auto.
        rewrite eqb_neq_false; [reflexivity|congruence]. }
      destruct cite; [rewrite dict_get_set; cbn|]; now rewrite E.
    + rewrite dict_get_set.
      destruct Hok as [-> | ->]; cbn; auto.
    + destruct Hok as [-> ->]. rewrite dict_get_ensure; cbn.
      destruct Hpre as [-> | ->]; auto.
Qed.

Lemma run_append_ensured (g : string) (x : value) (d : dict) (src : value) :
  listlike (dict_get g d) = true ->
  obj_append g x {| obj := dict_ensure g (VList []) d; source := src |} =
  (Returns tt, {| obj := grow g [x] d; source := src |}).
Proof.
  intros H.
  pose proof (run_ensure_append g x {| obj := d; source := src |}) as E.
  cbn [obj] in E. rewrite H in E. exact E.
Qed.

Lemma run_extend_ensured (g : string) (xs : list value) (d : dict) (src : value) :
  listlike (dict_get g d) = true ->
  obj_extend g xs {| obj := dict_ensure g (VList []) d; source := src |} =
  (Returns tt, {| obj := grow g xs d; source := src |}).
Proof.
  intros H.
  pose proof (run_ensure_extend g xs {| obj := d; source := src |}) as E.
  cbn [obj] in E. rewrite H in E. exact E.
Qed.

(** The [try] block swallows whatever [int] raises: the item is always
    built. *)
Lemma publication_item_returns (a : publication_args) :
  exists item, publication_item a = Returns item.
Proof.
  unfold publication_item, with_number_of_pages.
  destruct (truthy (page_start a) && truthy (page_end a)); [|eauto].
  unfold py_int.
  destruct (page_end a) as [| [|] | z | s | | |];
    try destruct (int_of_str s);
    destruct (page_start a) as [| [|] | z' | s' | | |];
    try destruct (int_of_str s'); eauto.
Qed.

Lemma not_str_no_key (k : string) (l : list value) :
  forallb not_str l = true -> existsb (str_eq k) l = false.
Proof.
  induction l as [|v l IH]; cbn; [reflexivity|].
  intros H. apply andb_prop in H as [Hv Hl].
  rewrite (IH Hl). now destruct v.
Qed.

(** On a record whose [publication_info] entries are not strings, the
    membership tests of [add_publication_info] all answer [False]: the call
    appends its item and does nothing else. *)
Lemma run_add_publication_info (a : publication_args) (d : dict) (src : value)
    (item : dict) :
  wf d -> publication_item a = Returns item ->
  add_publication_info a {| obj := d; source := src |} =
  (Returns tt, {| obj := grow "publication_info" [VDict item] d; source := src |}).
Proof.
  intros (Hseq & Hpub & _) Hitem.
  assert (Hl : listlike (dict_get "publication_info" d) = true)
    by (apply Hseq; cbn; auto 10).
  unfold add_publication_info.
  cbv [bind _ensure_field with_obj obj source lift]. rewrite Hitem.
  rewrite run_append_ensured by assumption.
  assert (Hget : obj_getitem "publication_info"
                   {| obj := grow "publication_info" [VDict item] d;
                      source := src |} =
                 (Returns (VList (entries "publication_info"
                                    {| obj := d; source := src |} ++ [VDict item])),
                  {| obj := grow "publication_info" [VDict item] d;
                     source := src |})).
  { unfold obj_getitem, entries; cbn [obj].
    now rewrite dict_get_grow by assumption. }
  set (l := entries "publication_info" {| obj := d; source := src |}
            ++ [VDict item]) in Hget.
  assert (Hns : forallb not_str l = true).
  { subst l. rewrite forallb_app. unfold entries; cbn.
    destruct (dict_get "publication_info" d) as [[| | | |l'| |]|] eqn:E;
      cbn; auto.
    now rewrite (Hpub l'). }
  rewrite Hget. cbn [keys_in py_in]. rewrite !(not_str_no_key _ _ Hns).
  rewrite Hget. cbn [keys_in py_in]. rewrite !(not_str_no_key _ _ Hns).
  reflexivity.
Qed.

Ltac seq_field H :=
  apply H; cbn; auto 20.

(** Every call has a footprint and an outcome that depend on its arguments
    and on [self.source] only. *)
Lemma perform_footprint (c : call) (src : value) :
  exists fp r,
    footprint_ok fp /\
    forall d, wf d ->
      perform c {| obj := d; source := src |} =
      (r, {| obj := apply_footprint fp d; source := src |}).
Proof.
  destruct c; cbn [perform].
  - eexists (Appends "abstracts" _ false), _. split; [cbn; split; [auto 20|discriminate]|].
    intros d (Hseq & _). unfold add_abstract.
    cbv [bind _ensure_field _get_source with_obj obj source].
    rewrite run_append_ensured by seq_field Hseq. reflexivity.
  - eexists (Appends "arxiv_eprints" _ true), _. split; [cbn; split; [auto 20|discriminate]|].
    intros d (Hseq & _). unfold add_arxiv_eprint.
    cbv [bind _ensure_field _get_source with_obj obj source].
    rewrite run_append_ensured by seq_field Hseq. reflexivity.
  - destruct (_doi_normalization doi) eqn:E.
    + eexists (Appends "dois" _ true), _. split; [cbn; split; [auto 20|discriminate]|].
      intros d (Hseq & _). unfold add_doi. rewrite E.
      cbv [bind _ensure_field _get_source with_obj obj source].
      rewrite run_append_ensured by seq_field Hseq. reflexivity.
    + exists (Appends "dois" [] false), (Returns tt).
      split; [cbn; split; [auto 20|discriminate]|].
      intros d (Hseq & _). unfold add_doi. rewrite E.
      cbv [bind _ensure_field ret with_obj obj source apply_footprint].
      rewrite grow_nil by seq_field Hseq. reflexivity.
  - eexists (Appends "authors" _ false), _. split; [cbn; split; [auto 20|discriminate]|].
    intros d (Hseq & _). unfold add_author.
    cbv [bind _ensure_field _get_source with_obj obj source].
    rewrite run_append_ensured by seq_field Hseq. reflexivity.
  - exists Untouched, (Returns tt). split; [exact I|]. reflexivity.
  - eexists (Appends "inspire_categories" _ false), _.
    split; [cbn; split; [auto 20|discriminate]|].
    intros d (Hseq & _). unfold add_inspire_categories.
    cbv [bind _ensure_field _get_source with_obj obj source].
    rewrite run_extend_ensured by seq_field Hseq. reflexivity.
  - eexists (Appends "_private_notes" _ false), _.
    split; [cbn; split; [auto 20|discriminate]|].
    intros d (Hseq & _). unfold add_private_notes.
    cbv [bind _ensure_field _get_source with_obj obj source].
    rewrite run_append_ensured by seq_field Hseq. reflexivity.
  - destruct (publication_item_returns a) as [item Hitem].
    exists (Appends "publication_info" [VDict item] false), (Returns tt).
    split; [cbn; split; [auto 20|reflexivity]|].
    intros d Hwf. now apply run_add_publication_info.
  - eexists (Appends "imprints" _ false), _. split; [cbn; split; [auto 20|discriminate]|].
    intros d (Hseq & _). unfold add_imprint_date.
    cbv [bind _ensure_field _get_source with_obj obj source].
    rewrite run_append_ensured by seq_field Hseq. reflexivity.
  - exists (Declines "preprint_date" (VDict [])), (Raises AttributeError).
    split; [cbn; auto|].
    intros d (_ & _ & Hpre). unfold add_preprint_date, obj_append.
    cbv [bind _ensure_field obj_getitem with_obj obj source apply_footprint].
    rewrite dict_get_ensure; cbn [String.eqb Ascii.eqb Bool.eqb].
    destruct Hpre as [-> | ->]; reflexivity.
  - eexists (Overwrites "thesis_info" _), _. split; [cbn; auto|].
    intros d _. unfold add_thesis.
    cbv [bind _ensure_field obj_setitem with_obj obj source apply_footprint].
    rewrite dict_set_ensure. reflexivity.
  - eexists (Appends "accelerator_experiments" _ false), _.
    split; [cbn; split; [auto 20|discriminate]|].
    intros d (Hseq & _). unfold add_accelerator_experiment.
    cbv [bind _ensure_field _get_source with_obj obj source].
    rewrite run_append_ensured by seq_field Hseq. reflexivity.
  - eexists (Appends "languages" _ false), _. split; [cbn; split; [auto 20|discriminate]|].
    intros d (Hseq & _). unfold add_language.
    cbv [bind _ensure_field _get_source with_obj obj source].
    rewrite run_append_ensured by seq_field Hseq. reflexivity.
  - eexists (Appends "license" _ false), _. split; [cbn; split; [auto 20|discriminate]|].
    intros d (Hseq & _). unfold add_license_url.
    cbv [bind _ensure_field _get_source with_obj obj source].
    rewrite run_append_ensured by seq_field Hseq. reflexivity.
  - eexists (Appends "public_notes" _ false), _.
    split; [cbn; split; [auto 20|discriminate]|].
    intros d (Hseq & _). unfold add_public_note.
    cbv [bind _ensure_field _get_source with_obj obj source].
    rewrite run_append_ensured by seq_field Hseq. reflexivity.
  - eexists (Appends "titles" _ false), _. split; [cbn; split; [auto 20|discriminate]|].
    intros d (Hseq & _). unfold add_title.
    cbv [bind _ensure_field _get_source with_obj obj source].
    rewrite run_append_ensured by seq_field Hseq. reflexivity.
  - eexists (Appends "title_translations" _ false), _.
    split; [cbn; split; [auto 20|discriminate]|].
    intros d (Hseq & _). unfold add_title_translation.
    cbv [bind _ensure_field _get_source with_obj obj source].
    rewrite run_append_ensured by seq_field Hseq. reflexivity.
  - eexists (Appends "urls" _ false), _. split; [cbn; split; [auto 20|discriminate]|].
    intros d (Hseq & _). unfold add_url.
    cbv [bind _ensure_field _get_source with_obj obj source].
    rewrite run_append_ensured by seq_field Hseq. reflexivity.
  - eexists (Appends "report_numbers" _ false), _.
    split; [cbn; split; [auto 20|discriminate]|].
    intros d (Hseq & _). unfold add_report_numbers.
    cbv [bind _ensure_field _get_source with_obj obj source].
    rewrite run_extend_ensured by seq_field Hseq. reflexivity.
  - eexists (Appends "collaborations" _ false), _.
    split; [cbn; split; [auto 20|discriminate]|].
    intros d (Hseq & _). unfold add_collaboration.
    cbv [bind _ensure_field _get_source with_obj obj source].
    rewrite run_append_ensured by seq_field Hseq. reflexivity.
  - eexists (Overwrites "acquisition_source" _), _. split; [cbn; auto|].
    intros d _. unfold add_acquisition_source.
    cbv [bind _ensure_field _get_source obj_setitem with_obj obj source apply_footprint].
    rewrite dict_set_ensure. reflexivity.
  - eexists (Appends "document_type" _ false), _.
    split; [cbn; split; [auto 20|discriminate]|].
    intros d (Hseq & _). unfold add_document_type.
    cbv [bind _ensure_field _get_source with_obj obj source].
    rewrite run_append_ensured by seq_field Hseq. reflexivity.
Qed.

(** ** Sessions reach well-formed records only *)

Lemma reachable_init (src : value) : reachable src (init src).
Proof. split; [apply wf_empty|reflexivity]. Qed.

Lemma entries_listlike (f : string) (d : dict) (src : value) :
  listlike (dict_get f d) = true ->
  dict_get f d =
  if dict_mem f d then Some (VList (entries f {| obj := d; source := src |}))
  else None.
Proof.
  unfold entries, dict_mem; cbn.
  now destruct (dict_get f d) as [[| | | |l| |]|].
Qed.

(** One call from a reachable record: the record stays reachable, and each
    sequence field holds what it held followed by the call's contribution. *)
Lemma perform_step (src : value) (c : call) (b : LiteratureBuilder) :
  reachable src b ->
  reachable src (exec (perform c) b) /\
  forall f, In f sequence_fields ->
    entries f (exec (perform c) b) = entries f b ++ contributed src f c /\
    dict_mem f (obj (exec (perform c) b)) =
      dict_mem f (obj b) || touches src f c.
Proof.
  destruct b as [d s]. intros [Hwf Hs]. cbn in Hwf, Hs. subst s.
  destruct (perform_footprint c src) as (fp & r & Hok & Hrun).
  unfold contributed, touches, exec, init.
  rewrite (Hrun d Hwf), (Hrun [] wf_empty). cbn [snd obj].
  split.
  - split; [now apply wf_apply_footprint|reflexivity].
  - intros f Hf. unfold entries, dict_mem. cbn [obj].
    rewrite !dict_get_apply_footprint by (auto using wf_empty).
    destruct Hwf as (Hseq & _).
    pose proof (Hseq f Hf) as Hl.
    destruct fp as [g xs cite| | |]; cbn [dict_get];
      try (destruct (dict_get f d) as [[| | | |l| |]|];
           try discriminate; now rewrite ?app_nil_r).
    destruct (String.eqb_spec f g) as [<-|Hfg].
    + destruct (dict_get f d) as [[| | | |l| |]|]; try discriminate; auto.
    + destruct (dict_get f d) as [[| | | |l| |]|];
        try discriminate; now rewrite ?app_nil_r.
Qed.

Lemma session_from (src : value) (cs : list call) (b : LiteratureBuilder) :
  reachable src b ->
  reachable src (session cs b) /\
  forall f, In f sequence_fields ->
    entries f (session cs b) =
      entries f b ++ concat (map (contributed src f) cs) /\
    dict_mem f (obj (session cs b)) =
      dict_mem f (obj b) || existsb (touches src f) cs.
Proof.
  revert b. induction cs as [|c cs IH]; intros b Hb; cbn [session fold_left].
  - split; [exact Hb|]. intros f _. cbn. now rewrite app_nil_r, orb_false_r.
  - destruct (@perform_step src c b Hb) as [Hb' Hstep].
    destruct (IH _ Hb') as [Hr Hcs]. split; [exact Hr|].
    intros f Hf. destruct (Hstep f Hf) as [E1 E2].
    destruct (Hcs f Hf) as [E3 E4]. unfold session in *.
    rewrite E3, E4, E1, E2. cbn. now rewrite app_assoc, orb_assoc.
Qed.

Lemma session_reachable (src : value) (cs : list call) :
  reachable src (session cs (init src)).
Proof. apply (@session_from src cs (init src)), reachable_init. Qed.

(** ** Strings *)

Lemma chars_app (s1 s2 : string) :
  PyStr.chars (s1 ++ s2)%string = PyStr.chars s1 ++ PyStr.chars s2.
Proof.
  unfold PyStr.chars. induction s1 as [|c s1 IH]; cbn; [reflexivity|].
  now rewrite IH.
Qed.

Lemma of_chars_chars (s : string) : PyStr.of_chars (PyStr.chars s) = s.
Proof. apply string_of_list_ascii_of_string. Qed.

(** ** The matcher decides the language of the pattern *)

Section MatchingFacts.

Variable ic : bool.

Lemma nullable_matches (r : regex) :
  nullable r = true <-> matches ic r [].
Proof.
  split.
  - induction r as [| |set|r1 IH1 r2 IH2|r1 IH1 r2 IH2|r IH]; cbn;
      try discriminate; intros H.
    + constructor.
    + apply andb_prop in H as [H1 H2].
      change (@nil ascii) with (@nil ascii ++ []). constructor; auto.
    + apply orb_prop in H as [H|H]; [apply MAltL|apply MAltR]; auto.
    + constructor.
  - intros H. remember [] as s eqn:Es.
    induction H as [|set x Hx|r1 r2 s1 s2 H1 IH1 H2 IH2|r1 r2 s H IH
                   |r1 r2 s H IH|r|r s1 s2 H1 IH1 H2 IH2]; cbn; auto.
    + discriminate.
    + apply app_eq_nil in Es as [-> ->]. now rewrite IH1, IH2.
    + now rewrite IH.
    + rewrite IH by assumption. apply orb_true_r.
Qed.

Lemma matches_deriv (x : ascii) (r : regex) (s : list ascii) :
  matches ic r (x :: s) -> matches ic (deriv ic x r) s.
Proof.
  intros H. remember (x :: s) as xs eqn:E. revert x s E.
  induction H as [|set y Hy|r1 r2 s1 s2 H1 IH1 H2 IH2|r1 r2 s0 H IH
                 |r1 r2 s0 H IH|r|r s1 s2 H1 IH1 H2 IH2]; intros x s E; cbn.
  - discriminate.
  - injection E as -> <-. rewrite Hy. constructor.
  - destruct s1 as [|y s1]; cbn in E.
    + subst s2. apply nullable_matches in H1. rewrite H1.
      apply MAltR. now apply IH2.
    + injection E as -> <-.
      destruct (nullable r1); [apply MAltL|]; constructor; auto.
  - apply MAltL. now apply IH.
  - apply MAltR. now apply IH.
  - discriminate.
  - destruct s1 as [|y s1]; cbn in E.
    + now apply IH2.
    + injection E as -> <-. constructor; auto.
Qed.

Lemma deriv_matches (x : ascii) (r : regex) (s : list ascii) :
  matches ic (deriv ic x r) s -> matches ic r (x :: s).
Proof.
  revert s. induction r as [| |set|r1 IH1 r2 IH2|r1 IH1 r2 IH2|r IH];
    cbn; intros s H.
  - inversion H.
  - inversion H.
  - destruct (set_matches ic set x) eqn:E; inversion H; subst.
    now constructor.
  - assert (Hcat : forall s', matches ic (Cat (deriv ic x r1) r2) s' ->
                              matches ic (Cat r1 r2) (x :: s')).
    { intros s' H'. inversion H' as [| |? ? s1 s2 Ha Hb| | | |]; subst.
      change (x :: s1 ++ s2) with ((x :: s1) ++ s2). constructor; auto. }
    destruct (nullable r1) eqn:E; [|now apply Hcat].
    inversion H as [| | |? ? ? Ha|? ? ? Hb| |]; subst; [now apply Hcat|].
    change (x :: s) with ([] ++ x :: s). constructor; auto.
    now apply nullable_matches.
  - inversion H; subst; [apply MAltL|apply MAltR]; auto.
  - inversion H as [| |? ? s1 s2 Ha Hb| | | |]; subst.
    change (x :: s1 ++ s2) with ((x :: s1) ++ s2). constructor; auto.
Qed.

(** [fullmatch] decides the language. *)
Lemma fullmatch_matches (r : regex) (s : list ascii) :
  fullmatch ic r s = true <-> matches ic r s.
Proof.
  revert r. induction s as [|x s IH]; intros r; cbn.
  - apply nullable_matches.
  - rewrite IH. split; [apply deriv_matches|apply matches_deriv].
Qed.

(** [pattern.match]: a prefix of the subject is in the language. *)
Lemma match_prefix_matches (r : regex) (s : list ascii) :
  match_prefix ic r s = true <->
  exists s1 s2, s = s1 ++ s2 /\ matches ic r s1.
Proof.
  revert r. induction s as [|x s IH]; intros r; cbn.
  - rewrite orb_false_r, nullable_matches. split.
    + intros H. now exists [], [].
    + intros (s1 & s2 & E & H). symmetry in E.
      apply app_eq_nil in E as [-> _]. exact H.
  - split.
    + intros H. apply orb_prop in H as [H|H].
      * exists [], (x :: s). split; [reflexivity|now apply nullable_matches].
      * apply IH in H as (s1 & s2 & -> & H).
        exists (x :: s1), s2. split; [reflexivity|now apply deriv_matches].
    + intros (s1 & s2 & E & H). apply orb_true_iff.
      destruct s1 as [|y s1]; cbn in E.
      * left. now apply nullable_matches.
      * right. injection E as <- ->. apply IH.
        exists s1, s2. split; [reflexivity|now apply matches_deriv].
Qed.

End MatchingFacts.

(** ** The DOI pattern, spelled out *)

Lemma matches_eps (s : list ascii) : matches true Eps s <-> s = [].
Proof.
  split; [intros H; now inversion H|intros ->; constructor].
Qed.

Lemma matches_atom (set : list item) (s : list ascii) :
  matches true (Atom set) s <-> exists x, s = [x] /\ set_matches true set x = true.
Proof.
  split.
  - intros H. inversion H; subst. eauto.
  - intros (x & -> & H). now constructor.
Qed.

Lemma matches_cat (r1 r2 : regex) (s : list ascii) :
  matches true (Cat r1 r2) s <->
  exists s1 s2, s = s1 ++ s2 /\ matches true r1 s1 /\ matches true r2 s2.
Proof.
  split.
  - intros H. inversion H; subst. eauto.
  - intros (s1 & s2 & -> & H1 & H2). now constructor.
Qed.

Lemma matches_alt (r1 r2 : regex) (s : list ascii) :
  matches true (Alt r1 r2) s <-> matches true r1 s \/ matches true r2 s.
Proof.
  split.
  - intros H. inversion H; subst; auto.
  - intros [H|H]; [apply MAltL|apply MAltR]; exact H.
Qed.

Lemma matches_opt (r : regex) (s : list ascii) :
  matches true (Opt r) s <-> s = [] \/ matches true r s.
Proof.
  unfold Opt. rewrite matches_alt, matches_eps. tauto.
Qed.

Lemma matches_star_atom (set : list item) (s : list ascii) :
  matches true (Star (Atom set)) s <-> forallb (set_matches true set) s = true.
Proof.
  split.
  - intros H. remember (Star (Atom set)) as r eqn:E.
    induction H as [| | | | |r0|r0 s1 s2 H1 _ H2 IH2]; try discriminate.
    + reflexivity.
    + injection E as ->. apply matches_atom in H1 as (x & -> & Hx).
      cbn. now rewrite Hx, IH2.
  - induction s as [|x s IH]; cbn; intros H; [constructor|].
    apply andb_prop in H as [Hx Hs].
    change (x :: s) with ([x] ++ s). constructor; [now constructor|auto].
Qed.

Lemma matches_plus_atom (set : list item) (s : list ascii) :
  matches true (Plus (Atom set)) s <->
  s <> [] /\ forallb (set_matches true set) s = true.
Proof.
  unfold Plus. rewrite matches_cat. split.
  - intros (s1 & s2 & -> & H1 & H2).
    apply matches_atom in H1 as (x & -> & Hx).
    apply matches_star_atom in H2. cbn. now rewrite Hx, H2.
  - intros [Hne H]. destruct s as [|x s]; [contradiction|].
    cbn in H. apply andb_prop in H as [Hx Hs].
    exists [x], s. repeat split.
    + apply matches_atom; eauto.
    + now apply matches_star_atom.
Qed.

Lemma matches_rep4_atom (set : list item) (s : list ascii) :
  matches true (Rep4 (Atom set)) s <->
  length s = 4 /\ forallb (set_matches true set) s = true.
Proof.
  unfold Rep4. split.
  - intros H.
    apply matches_cat in H as (s1 & t1 & -> & H1 & H).
    apply matches_cat in H as (s2 & t2 & -> & H2 & H).
    apply matches_cat in H as (s3 & s4 & -> & H3 & H4).
    apply matches_atom in H1 as (x1 & -> & E1).
    apply matches_atom in H2 as (x2 & -> & E2).
    apply matches_atom in H3 as (x3 & -> & E3).
    apply matches_atom in H4 as (x4 & -> & E4).
    cbn. now rewrite E1, E2, E3, E4.
  - intros [Hlen H].
    destruct s as [|x1 [|x2 [|x3 [|x4 [|]]]]]; try discriminate.
    cbn in H. rewrite andb_true_r in H.
    apply andb_prop in H as [E1 H]. apply andb_prop in H as [E2 H].
    apply andb_prop in H as [E3 E4].
    change [x1; x2; x3; x4] with ([x1] ++ [x2] ++ [x3] ++ [x4]).
    repeat constructor; assumption.
Qed.

Lemma matches_lit (c : ascii) (s : list ascii) :
  matches true (Lit c) s <-> ci_equal s (String c "").
Proof.
  unfold Lit, ci_equal. rewrite matches_atom. cbn. split.
  - intros (x & -> & H). rewrite orb_false_r in H.
    apply Ascii.eqb_eq in H. cbn. now rewrite H.
  - intros H. destruct s as [|x [|]]; try discriminate.
    injection H as H. exists x. split; [reflexivity|].
    rewrite H. now rewrite Ascii.eqb_refl.
Qed.

Lemma ci_equal_cons (x : ascii) (s : list ascii) (c : ascii) (lit : string) :
  ci_equal (x :: s) (String c lit) <->
  ci_equal [x] (String c "") /\ ci_equal s lit.
Proof.
  unfold ci_equal; cbn. split.
  - intros [= H1 H2]. now rewrite H1, H2.
  - intros [[= H1] H2]. now rewrite H1, H2.
Qed.

Lemma matches_str (lit : string) (s : list ascii) :
  matches true (Str lit) s <-> ci_equal s lit.
Proof.
  revert s. induction lit as [|c lit IH]; intros s.
  - change (Str "") with Eps. rewrite matches_eps. unfold ci_equal; cbn.
    split; [now intros ->|]. now destruct s.
  - change (Str (String c lit)) with (Cat (Lit c) (Str lit)).
    rewrite matches_cat. split.
    + intros (s1 & s2 & -> & H1 & H2).
      apply matches_lit in H1. apply IH in H2.
      destruct s1 as [|x [|]]; try discriminate H1.
      apply ci_equal_cons. auto.
    + intros H. destruct s as [|x s]; [discriminate H|].
      apply ci_equal_cons in H as [H1 H2].
      exists [x], s. repeat split.
      * now apply matches_lit.
      * now apply IH.
Qed.

Lemma ci_equal_app (a b : list ascii) (x y : string) :
  ci_equal a x -> ci_equal b y -> ci_equal (a ++ b) (x ++ y).
Proof.
  unfold ci_equal. intros Ha Hb. now rewrite chars_app, !map_app, Ha, Hb.
Qed.

Ltac every_char :=
  intros [[] [] [] [] [] [] [] []]; vm_compute; reflexivity.

Lemma body_set_char (x : ascii) :
  set_matches true doi_body_set x = doi_body_char x.
Proof.
  unfold set_matches, doi_body_set, doi_body_char, doi_tail_char.
  cbn [existsb item_matches]. rewrite <- orb_assoc. f_equal.
  revert x. every_char.
Qed.

Lemma tail_set_char (x : ascii) :
  set_matches true doi_tail_set x = doi_tail_char x.
Proof.
  unfold set_matches, doi_tail_set, doi_tail_char.
  cbn [existsb item_matches]. f_equal. revert x. every_char.
Qed.

Lemma digit_set_char (x : ascii) :
  set_matches true [Digit] x = re_digit x.
Proof. apply orb_false_r. Qed.

Lemma space_set_char (x : ascii) :
  set_matches true [Space] x = re_space x.
Proof. apply orb_false_r. Qed.

Lemma forallb_same {A} (f g : A -> bool) (l : list A) :
  (forall x, f x = g x) -> forallb f l = forallb g l.
Proof.
  intros H. induction l as [|x l IH]; cbn; [reflexivity|]. now rewrite H, IH.
Qed.

(** A bracket of the two cases of one letter is that letter, either case. *)
Lemma matches_two_cases (up low : ascii) (s : list ascii) :
  PyStr.lower_char up = PyStr.lower_char low ->
  matches true (Atom [Ch up; Ch low]) s <-> ci_equal s (String low "").
Proof.
  intros E. rewrite <- matches_lit. unfold Lit. rewrite !matches_atom.
  split; intros (x & -> & H); exists x; (split; [reflexivity|]);
    cbn in *; rewrite E in *; destruct (Ascii.eqb _ _); auto.
Qed.

Lemma matches_doi_group (l : list ascii) :
  matches true doi_group l <-> doi_core_shape l.
Proof.
  unfold doi_group, doi_core_shape. cbn [Seq]. split.
  - intros H.
    apply matches_cat in H as (ten & l1 & -> & Hten & H).
    apply matches_cat in H as (digits & l2 & -> & Hd & H).
    apply matches_cat in H as (sep & l3 & -> & Hsep & H).
    apply matches_cat in H as (body & l4 & -> & Hbody & H).
    apply matches_cat in H as (lst & l5 & -> & Hlast & H).
    apply matches_eps in H as ->.
    apply matches_atom in Hlast as (last & -> & Hlast).
    apply matches_str in Hten.
    apply matches_rep4_atom in Hd as [Hlen Hd].
    apply matches_alt in Hsep. rewrite matches_lit, matches_str in Hsep.
    apply matches_plus_atom in Hbody as [Hne Hbody].
    exists ten, digits, sep, body, last. rewrite app_nil_r.
    rewrite (forallb_same _ _ digits digit_set_char) in Hd.
    rewrite (forallb_same _ _ body body_set_char) in Hbody.
    rewrite tail_set_char in Hlast. auto 10.
  - intros (ten & digits & sep & body & last & -> & Hten & Hlen & Hd & Hsep
            & Hne & Hbody & Hlast).
    apply matches_cat. exists ten, (digits ++ sep ++ body ++ [last]).
    split; [reflexivity|]. split; [now apply matches_str|].
    apply matches_cat. exists digits, (sep ++ body ++ [last]).
    split; [reflexivity|]. split.
    { apply matches_rep4_atom. split; [exact Hlen|].
      now rewrite (forallb_same _ _ digits digit_set_char). }
    apply matches_cat. exists sep, (body ++ [last]).
    split; [reflexivity|]. split.
    { apply matches_alt. now rewrite matches_lit, matches_str. }
    apply matches_cat. exists body, [last].
    split; [reflexivity|]. split.
    { apply matches_plus_atom. split; [exact Hne|].
      now rewrite (forallb_same _ _ body body_set_char). }
    apply matches_cat. exists [last], []. split; [reflexivity|]. split.
    + apply matches_atom. exists last. now rewrite tail_set_char.
    + constructor.
Qed.

Lemma matches_doi_label (p : list ascii) :
  matches true doi_label p <-> doi_label_shape p.
Proof.
  unfold doi_label, doi_label_shape. cbn [Seq]. split.
  - intros H.
    apply matches_cat in H as (op & l1 & -> & Hop & H).
    apply matches_cat in H as (d & l2 & -> & Hd & H).
    apply matches_cat in H as (o & l3 & -> & Ho & H).
    apply matches_cat in H as (i & l4 & -> & Hi & H).
    apply matches_cat in H as (sp1 & l5 & -> & Hsp1 & H).
    apply matches_cat in H as (cl & l6 & -> & Hcl & H).
    apply matches_cat in H as (co & l7 & -> & Hco & H).
    apply matches_cat in H as (sp2 & l8 & -> & Hsp2 & H).
    apply matches_eps in H as ->.
    rewrite matches_opt, matches_lit in Hop, Hcl, Hco.
    apply matches_two_cases in Hd, Ho, Hi; try reflexivity.
    apply matches_star_atom in Hsp1, Hsp2.
    rewrite (forallb_same _ _ sp1 space_set_char) in Hsp1.
    rewrite (forallb_same _ _ sp2 space_set_char) in Hsp2.
    exists op, (d ++ o ++ i), sp1, cl, co, sp2. rewrite app_nil_r.
    repeat split; auto.
    + now rewrite <- !app_assoc.
    + apply (ci_equal_app d (o ++ i) "d" "oi"); [exact Hd|].
      now apply (ci_equal_app o i "o" "i").
  - intros (op & name & sp1 & cl & co & sp2 & -> & Hop & Hname & Hsp1 & Hcl
            & Hco & Hsp2).
    destruct name as [|d [|o [|i [|]]]]; try discriminate Hname.
    apply ci_equal_cons in Hname as [Hd Hname].
    apply ci_equal_cons in Hname as [Ho Hi].
    apply matches_cat. eexists op, _. split; [reflexivity|]. split.
    { now rewrite matches_opt, matches_lit. }
    apply matches_cat. exists [d], ([o; i] ++ sp1 ++ cl ++ co ++ sp2).
    split; [reflexivity|]. split.
    { now apply matches_two_cases. }
    apply matches_cat. exists [o], ([i] ++ sp1 ++ cl ++ co ++ sp2).
    split; [reflexivity|]. split.
    { now apply matches_two_cases. }
    apply matches_cat. exists [i], (sp1 ++ cl ++ co ++ sp2).
    split; [reflexivity|]. split.
    { now apply matches_two_cases. }
    apply matches_cat. eexists sp1, _. split; [reflexivity|]. split.
    { apply matches_star_atom.
      now rewrite (forallb_same _ _ _ space_set_char). }
    apply matches_cat. eexists cl, _. split; [reflexivity|]. split.
    { now rewrite matches_opt, matches_lit. }
    apply matches_cat. eexists co, _. split; [reflexivity|]. split.
    { now rewrite matches_opt, matches_lit. }
    apply matches_cat. exists sp2, []. split; [now rewrite app_nil_r|]. split.
    + apply matches_star_atom.
      now rewrite (forallb_same _ _ _ space_set_char).
    + constructor.
Qed.

Lemma matches_doi_url (p : list ascii) :
  matches true doi_url p <-> doi_url_shape p.
Proof.
  unfold doi_url, doi_url_shape. cbn [Seq]. split.
  - intros H.
    apply matches_cat in H as (http & l1 & -> & Hhttp & H).
    apply matches_cat in H as (s & l2 & -> & Hs & H).
    apply matches_cat in H as (colon & l3 & -> & Hcolon & H).
    apply matches_cat in H as (dx & l4 & -> & Hdx & H).
    apply matches_cat in H as (host & l5 & -> & Hhost & H).
    apply matches_eps in H as ->.
    rewrite matches_opt in Hs, Hdx. rewrite matches_lit in Hs.
    rewrite matches_str in Hhttp, Hcolon, Hdx, Hhost.
    exists http, s, colon, dx, host. rewrite app_nil_r. auto 10.
  - intros (http & s & colon & dx & host & -> & Hhttp & Hs & Hcolon & Hdx
            & Hhost).
    apply matches_cat. eexists http, _. split; [reflexivity|]. split.
    { now apply matches_str. }
    apply matches_cat. eexists s, _. split; [reflexivity|]. split.
    { now rewrite matches_opt, matches_lit. }
    apply matches_cat. eexists colon, _. split; [reflexivity|]. split.
    { now apply matches_str. }
    apply matches_cat. eexists dx, _. split; [reflexivity|]. split.
    { now rewrite matches_opt, matches_str. }
    apply matches_cat. exists host, []. split; [now rewrite app_nil_r|]. split.
    + now apply matches_str.
    + constructor.
Qed.

(** [_doi_normalization] accepts exactly the strings of that shape. *)
Lemma doi_normalization_shape (doi : string) :
  _doi_normalization doi = true <-> has_doi_shape doi.
Proof.
  unfold _doi_normalization, has_doi_shape, doi_pattern.
  rewrite match_prefix_matches. split.
  - intros (s1 & rest & E & H).
    apply matches_cat in H as (pre & core & -> & Hpre & Hcore).
    exists pre, core, rest. split; [now rewrite E, app_assoc|].
    apply matches_doi_group in Hcore. split; [|exact Hcore].
    rewrite matches_opt, matches_alt, matches_doi_label, matches_doi_url in Hpre.
    exact Hpre.
  - intros (pre & core & rest & E & Hpre & Hcore).
    exists (pre ++ core), rest. split; [now rewrite E, app_assoc|].
    apply matches_cat. exists pre, core. split; [reflexivity|]. split.
    + now rewrite matches_opt, matches_alt, matches_doi_label, matches_doi_url.
    + now apply matches_doi_group.
Qed.

(** The pattern follows the interpreter's classes: whatever character
    the interpreter counts as white space may stand between the label and
    the DOI, and whatever it counts as a word character may end the
    suffix. *)
Lemma doi_core_10_1234 (last : ascii) :
  doi_tail_char last = true ->
  doi_core_shape (PyStr.chars "10.1234/a" ++ [last]).
Proof.
  intros Hlast.
  exists (PyStr.chars "10."), (PyStr.chars "1234"), (PyStr.chars "/"),
    (PyStr.chars "a"), last.
  split; [reflexivity|]. split; [reflexivity|]. split; [reflexivity|].
  split; [cbn; now rewrite !re_digit_ascii by reflexivity|].
  split; [now left|]. split; [discriminate|]. split; [|exact Hlast].
  cbn. unfold doi_body_char, doi_tail_char.
  now rewrite re_word_letter by reflexivity.
Qed.

Lemma doi_accepted_after_interpreter_space (sp : ascii) :
  re_space sp = true ->
  _doi_normalization (String "d" (String "o" (String "i" (String sp "10.1234/ab"))))
  = true.
Proof.
  intros Hsp. apply doi_normalization_shape.
  exists (PyStr.chars "doi" ++ [sp]), (PyStr.chars "10.1234/a" ++ ["b"%char]), [].
  split; [reflexivity|]. split.
  - right. left. exists [], (PyStr.chars "doi"), [sp], [], [], [].
    split; [reflexivity|]. split; [now left|]. split; [reflexivity|].
    split; [cbn; now rewrite Hsp|]. auto.
  - apply doi_core_10_1234. unfold doi_tail_char.
    now rewrite re_word_letter by reflexivity.
Qed.

Lemma doi_accepted_with_interpreter_word (w : ascii) :
  re_word w = true ->
  _doi_normalization ("10.1234/a" ++ String w "") = true.
Proof.
  intros Hw. apply doi_normalization_shape.
  exists [], (PyStr.chars "10.1234/a" ++ [w]), [].
  split; [reflexivity|]. split; [now left|].
  apply doi_core_10_1234. unfold doi_tail_char. now rewrite Hw.
Qed.

(** ** The claims *)

(** *** Sequence fields accumulate *)

Lemma supplied_fold_is_filter (a : publication_args) :
  fold_left set_supplied (publication_locals a) [] =
  filter (fun kv => is_not_None (snd kv)) (publication_locals a).
Proof.
  unfold publication_locals, set_supplied. cbn [fold_left filter fst snd].
  destruct (is_not_None (cnum a)), (is_not_None (artid a)),
    (is_not_None (page_end a)), (is_not_None (page_start a)),
    (is_not_None (journal_issue a)), (is_not_None (journal_title a)),
    (is_not_None (journal_volume a)), (is_not_None (year a)); reflexivity.
Qed.

Lemma set_supplied_keeps_absent (k : string) (item : dict) (kv : string * value) :
  fst kv <> k -> dict_get k (set_supplied item kv) = dict_get k item.
Proof.
  intros H. unfold set_supplied. destruct (is_not_None (snd kv)); [|reflexivity].
  rewrite dict_get_set. rewrite eqb_neq_false; [reflexivity|congruence].
Qed.

(** The item the method builds is the specified one. *)
Lemma publication_item_as_specified (a : publication_args) :
  publication_item a = Returns (specified_publication_item a).
Proof.
  unfold publication_item, specified_publication_item, with_number_of_pages.
  rewrite <- supplied_fold_is_filter.
  set (base := fold_left set_supplied (publication_locals a) []).
  assert (Hno : dict_get "number_of_pages" base = None).
  { subst base. unfold publication_locals. cbn [fold_left].
    repeat (rewrite set_supplied_keeps_absent by (cbn; discriminate)).
    reflexivity. }
  destruct (truthy (page_start a) && truthy (page_end a));
    [|now rewrite app_nil_r].
  destruct (py_int (page_end a)) as [last|e] eqn:Ee.
  - destruct (py_int (page_start a)) as [first|e'] eqn:Es.
    + now rewrite (dict_set_absent _ _ _ Hno).
    + rewrite app_nil_r.
      destruct e'; try reflexivity;
        destruct (page_start a) as [| [|] | z | s | | |]; cbn in Es;
        try destruct (int_of_str s); discriminate Es.
  - rewrite app_nil_r.
    destruct e; try reflexivity;
      destruct (page_end a) as [| [|] | z | s | | |]; cbn in Ee;
      try destruct (int_of_str s); discriminate Ee.
Qed.

(** On a fresh builder every call adds what it is specified to add. *)
Lemma contributed_as_specified (src : value) (f : string) (c : call) :
  In f sequence_fields ->
  contributed src f c = added_to src f c /\
  touches src f c = adds_to src f c.
Proof.
  intros Hf. unfold contributed, touches, added_to, adds_to.
  destruct c; cbn [specified_addition perform].
  3: { unfold add_doi, exec. destruct (_doi_normalization doi);
       repeat (destruct Hf as [<-|Hf]; [split; reflexivity|]); destruct Hf. }
  7: { unfold exec, init.
       rewrite (@run_add_publication_info a [] src
                  (specified_publication_item a) wf_empty
                  (publication_item_as_specified a)).
       repeat (destruct Hf as [<-|Hf]; [split; reflexivity|]); destruct Hf. }
  all: repeat (destruct Hf as [<-|Hf]; [split; reflexivity|]); destruct Hf.
Qed.

(** C8.  Every sequence-valued field is created on the first call that adds
    to it and is never created again.  After any session on a fresh builder
    the field is absent if no call added to it, and otherwise holds exactly
    the concatenation, in call order, of the entries each call is specified
    to add ([specified_addition]); calls made later keep all of it, in
    place, in front of what they add. *)
Theorem sequence_fields_accumulate (src : value) (cs cs' : list call) (f : string) :
  In f sequence_fields ->
  dict_get f (obj (session cs (init src))) =
    (if existsb (adds_to src f) cs
     then Some (VList (concat (map (added_to src f) cs)))
     else None) /\
  entries f (session cs' (session cs (init src))) =
    entries f (session cs (init src)) ++ concat (map (added_to src f) cs').
Proof.
  intros Hf.
  assert (Hmap : forall l, map (contributed src f) l = map (added_to src f) l)
    by (intros l; apply map_ext; intros c;
        now apply contributed_as_specified).
  assert (Hex : forall l, existsb (touches src f) l = existsb (adds_to src f) l).
  { induction l as [|c l IH]; cbn; [reflexivity|].
    rewrite IH. f_equal. now apply contributed_as_specified. }
  destruct (@session_from src cs (init src) (reachable_init src)) as [[Hwf Hsrc] Hcs].
  destruct (Hcs f Hf) as [E1 E2]. split.
  - destruct Hwf as (Hseq & _).
    rewrite (entries_listlike f (obj (session cs (init src))) src (Hseq f Hf)).
    rewrite E2, Hex. cbn [init obj dict_mem dict_get orb].
    destruct (existsb (adds_to src f) cs); [|reflexivity].
    do 2 f_equal. unfold entries in *. cbn [obj] in *.
    rewrite E1, Hmap. reflexivity.
  - rewrite <- Hmap.
    apply (@session_from src cs' (session cs (init src)) (conj Hwf Hsrc)).
    exact Hf.
Qed.

(** *** [citeable] is only ever set *)

Lemma citeable_write (b : LiteratureBuilder) (f : string) (v : value) :
  citeable b -> f <> "citeable" -> citeable (with_obj (dict_set f v (obj b)) b).
Proof.
  unfold citeable. intros H Hf. cbn [with_obj obj].
  rewrite dict_get_set.
  destruct (String.eqb_spec "citeable" f) as [<-|]; [contradiction|exact H].
Qed.

Lemma citeable_set (b : LiteratureBuilder) :
  citeable b -> citeable (with_obj (dict_set "citeable" (VBool true) (obj b)) b).
Proof.
  unfold citeable. intros _. cbn [with_obj obj]. now rewrite dict_get_set.
Qed.

(** C9.  Once the record has [citeable == True], every later call of a
    builder method, whatever it is and whether it returns or raises, leaves
    [citeable == True]. *)
Theorem citeable_never_reset (b : LiteratureBuilder) (cs : list call) :
  citeable b -> citeable (session cs b).
Proof.
  revert b. induction cs as [|c cs IH]; intros b H; cbn [session fold_left].
  - exact H.
  - apply IH. now apply (@keeps_perform citeable citeable_write citeable_set c).
Qed.

(** *** [add_preprint_date] *)

Lemma run_add_preprint_date (x : value) (d : dict) (src : value) :
  wf d ->
  add_preprint_date x {| obj := d; source := src |} =
  (Raises AttributeError,
   {| obj := dict_ensure "preprint_date" (VDict []) d; source := src |}).
Proof.
  intros (_ & _ & Hpre). unfold add_preprint_date, obj_append.
  cbv [bind _ensure_field obj_getitem with_obj obj source].
  rewrite dict_get_ensure; cbn [String.eqb Ascii.eqb Bool.eqb].
  destruct Hpre as [-> | ->]; reflexivity.
Qed.

(** C5 (the code departs from it).  In every session, for every date
    string, [add_preprint_date] raises [AttributeError]: the container it
    has just ensured is the dictionary [{}], which has no [append].  The
    record is left with [preprint_date] bound to the empty dictionary, and
    no entry for the date is stored. *)
Theorem add_preprint_date_raises (src : value) (cs : list call) (date : string) :
  let b := session cs (init src) in
  result (add_preprint_date (VStr date)) b = Raises AttributeError /\
  dict_get "preprint_date" (obj (exec (add_preprint_date (VStr date)) b)) =
    Some (VDict []).
Proof.
  intros b. destruct (session_reachable src cs) as [Hwf _]. fold b in Hwf.
  destruct b as [d s]. cbn [obj] in Hwf. unfold result, exec.
  rewrite run_add_preprint_date by assumption. cbn [fst snd obj].
  split; [reflexivity|].
  rewrite dict_get_ensure. cbn [String.eqb Ascii.eqb Bool.eqb].
  destruct Hwf as (_ & _ & [-> | ->]); reflexivity.
Qed.

(** *** [add_publication_info] and [citeable] *)

(** In a session, [add_publication_info] leaves [citeable] as it found it,
    whatever its arguments: its tests look for the key names among the
    entries themselves, which are dictionaries. *)
Lemma add_publication_info_keeps_citeable (src : value) (cs : list call)
    (a : publication_args) :
  let b := session cs (init src) in
  dict_get "citeable" (obj (exec (add_publication_info a) b)) =
  dict_get "citeable" (obj b).
Proof.
  intros b. destruct (session_reachable src cs) as [Hwf _]. fold b in Hwf.
  destruct b as [d s]. cbn [obj] in *.
  destruct (publication_item_returns a) as [item Hitem].
  unfold exec. rewrite (@run_add_publication_info a d s item Hwf Hitem). cbn [snd obj].
  destruct Hwf as (Hseq & _).
  rewrite dict_get_grow by (apply Hseq; cbn; auto 10). reflexivity.
Qed.

(** C1 (the code departs from it).  On a fresh builder,
    [add_publication_info(year=2017, journal_issue="2", journal_volume="3",
    page_start="1")] returns, the accumulated sequence has [year],
    [journal_issue], [journal_volume] and [page_start] present in an entry,
    and the record has no [citeable] key at all. *)
Theorem add_publication_info_complete_not_citeable :
  let a := mkPublication (VInt 2017) VNone VNone VNone (VStr "1") (VStr "2")
             VNone (VStr "3") in
  let b := exec (add_publication_info a) (init (VStr "submitter")) in
  result (add_publication_info a) (init (VStr "submitter")) = Returns tt /\
  forallb (fun k => key_present k (entries "publication_info" b))
    ["year"; "journal_issue"; "journal_volume"] = true /\
  existsb (fun k => key_present k (entries "publication_info" b))
    ["page_start"; "page_end"; "artid"] = true /\
  dict_get "citeable" (obj b) = None.
Proof. repeat split. Qed.

(** *** A rejected DOI *)

(** C10.  When the pattern rejects the string, [add_doi] returns and the
    record changes in one way at most: if it had no [dois] key, that key is
    added, bound to the empty sequence, after the keys already there; if it
    had one, the builder is exactly what it was. *)
Theorem rejected_doi_frame (b : LiteratureBuilder) (doi : string) (src : value) :
  _doi_normalization doi = false ->
  result (add_doi doi src) b = Returns tt /\
  (dict_get "dois" (obj b) = None ->
   exec (add_doi doi src) b = with_obj (obj b ++ [("dois", VList [])]) b) /\
  (dict_get "dois" (obj b) <> None -> exec (add_doi doi src) b = b).
Proof.
  intros E. unfold result, exec, add_doi. rewrite E.
  cbv [bind _ensure_field ret fst snd]. split; [reflexivity|]. split; intros H.
  - unfold dict_ensure, dict_mem. rewrite H. now rewrite dict_set_absent.
  - rewrite dict_ensure_present by assumption. apply with_obj_same.
Qed.

(** *** [make_author] *)

(** C4 (the code departs from it).  Whatever the name, the affiliations and
    the supervisor argument, the [affiliations] field of the author holds
    exactly one element, the generator object of the wrappers, and it is
    never the sequence of the [{value: a_i}] wrappers themselves. *)
Theorem make_author_affiliations_one_generator (full_name : string)
    (affiliations : list value) (supervisor : value) :
  let wrappers := map (fun a => entry [("value", a)]) affiliations in
  dict_get "affiliations" (make_author full_name (Some affiliations) supervisor) =
    Some (VList [VGen wrappers]) /\
  dict_get "affiliations" (make_author full_name (Some affiliations) supervisor) <>
    Some (VList wrappers).
Proof.
  intros wrappers.
  assert (E : dict_get "affiliations"
                (make_author full_name (Some affiliations) supervisor) =
              Some (VList [VGen wrappers])).
  { unfold make_author. destruct (is_not_None supervisor); reflexivity. }
  split; [exact E|]. rewrite E. subst wrappers.
  destruct affiliations as [|a [|a' l]]; cbn; intros [=].
Qed.

(** C2 (the code departs from it).  [inspire_roles == ['supervisor']] is
    attached exactly when [supervisor] is not [None]; and a call that leaves
    [supervisor] out runs with the default [False], which is not [None], so
    it attaches the role as well. *)
Theorem make_author_supervisor_role (full_name : string)
    (affiliations : option (list value)) :
  (forall supervisor,
     dict_get "inspire_roles" (make_author full_name affiliations supervisor) =
     if is_not_None supervisor then Some (VList [VStr "supervisor"]) else None) /\
  dict_get "inspire_roles" (make_author_call full_name affiliations None) =
    Some (VList [VStr "supervisor"]).
Proof.
  assert (H : forall supervisor,
             dict_get "inspire_roles"
               (make_author full_name affiliations supervisor) =
             if is_not_None supervisor
             then Some (VList [VStr "supervisor"]) else None).
  { intros supervisor. unfold make_author.
    destruct (is_not_None supervisor), affiliations; reflexivity. }
  split; [exact H|]. unfold make_author_call. now rewrite H.
Qed.

(** *** [number_of_pages] *)

Lemma set_supplied_other (k : string) (item : dict) (kv : string * value) :
  fst kv <> k -> dict_get k (set_supplied item kv) = dict_get k item.
Proof.
  intros H. unfold set_supplied. destruct (is_not_None (snd kv)); [|reflexivity].
  rewrite dict_get_set. rewrite eqb_neq_false; [reflexivity|congruence].
Qed.

(** No argument of the signature is called [number_of_pages]. *)
Lemma supplied_keys_no_number_of_pages (a : publication_args) :
  dict_get "number_of_pages" (fold_left set_supplied (publication_locals a) []) = None.
Proof.
  unfold publication_locals. cbn [fold_left].
  repeat (rewrite set_supplied_other by (cbn; discriminate)). reflexivity.
Qed.



(** *** The full name *)

Lemma split_chars_free (c : ascii) (l : list ascii) :
  free_of c l = true -> PyStr.split_chars c l = [l].
Proof.
  induction l as [|x l IH]; cbn; [reflexivity|].
  intros H. apply andb_prop in H as [Hx Hl].
  apply negb_true_iff in Hx. rewrite Hx, (IH Hl). reflexivity.
Qed.

Lemma split_chars_first (c : ascii) (p l : list ascii) :
  free_of c p = true ->
  PyStr.split_chars c (p ++ c :: l) = p :: PyStr.split_chars c l.
Proof.
  induction p as [|x p IH]; cbn.
  - intros _. now rewrite Ascii.eqb_refl.
  - intros H. apply andb_prop in H as [Hx Hp].
    apply negb_true_iff in Hx. rewrite Hx, (IH Hp). reflexivity.
Qed.

(** A name that passes the initials check has no comma in it. *)
Lemma initials_free_of_comma (rest : string) :
  _verify_author_name_initials rest = true ->
  free_of "," (PyStr.chars rest) = true.
Proof.
  unfold _verify_author_name_initials, free_of.
  intros H. apply negb_true_iff in H.
  induction (PyStr.chars rest) as [|x l IH]; cbn in *; [reflexivity|].
  apply orb_false_elim in H as [Hx Hl]. rewrite (IH Hl), andb_true_r.
  apply negb_false_iff in Hx.
  destruct (Ascii.eqb_spec x ","%char) as [->|]; [discriminate Hx|reflexivity].
Qed.

Lemma split_surname_rest (surname rest : string) :
  free_of "," (PyStr.chars surname) = true ->
  free_of "," (PyStr.chars rest) = true ->
  PyStr.split "," (surname ++ "," ++ rest)%string = [surname; rest].
Proof.
  intros Hs Hr. unfold PyStr.split.
  rewrite chars_app. change (PyStr.chars ("," ++ rest)) with (","%char :: PyStr.chars rest).
  rewrite split_chars_first, split_chars_free by assumption.
  cbn [map]. now rewrite !of_chars_chars.
Qed.

(** C3, amended.  For a name [surname,rest] whose surname has no comma and
    whose rest qualifies as initials (only uppercase letters, periods and
    spaces), [make_author] returns [full_name] equal to the surname, then
    [", "], then the rest with all its spaces removed.  No period is added. *)
Theorem make_author_full_name_initials (surname rest : string)
    (affiliations : option (list value)) (supervisor : value) :
  free_of "," (PyStr.chars surname) = true ->
  _verify_author_name_initials rest = true ->
  dict_get "full_name"
    (make_author (surname ++ "," ++ rest)%string affiliations supervisor) =
  Some (VStr (surname ++ ", " ++ PyStr.remove_char " " rest)%string).
Proof.
  intros Hs Hr.
  assert (E : _normalize_author_name_with_comma (surname ++ "," ++ rest) =
              (surname ++ ", " ++ PyStr.remove_char " " rest)%string).
  { unfold _normalize_author_name_with_comma.
    rewrite split_surname_rest by auto using initials_free_of_comma.
    now rewrite Hr. }
  unfold make_author. rewrite E.
  destruct (is_not_None supervisor), affiliations; reflexivity.
Qed.

(** *** [add_doi] *)

Lemma run_add_doi (doi : string) (src : value) (d : dict) (src0 : value) :
  wf d ->
  add_doi doi src {| obj := d; source := src0 |} =
  (Returns tt,
   {| obj :=
        if _doi_normalization doi
        then dict_set "citeable" (VBool true)
               (grow "dois"
                  [entry [("value", VStr doi);
                          ("source", if is_not_None src then src else src0)]] d)
        else dict_ensure "dois" (VList []) d;
      source := src0 |}).
Proof.
  intros (Hseq & _). unfold add_doi.
  destruct (_doi_normalization doi).
  - cbv [bind _ensure_field _get_source with_obj obj source].
    rewrite run_append_ensured by seq_field Hseq. reflexivity.
  - reflexivity.
Qed.

(** C6, amended.  In every session: when the string starts with an optional
    [doi]-label or [doi.org] URL followed by [10.], four digits, [/] or
    [%2f] and at least two suffix characters of which the last is not a
    period (anything may follow), [add_doi] appends exactly one entry, with
    the whole string as [value] and the resolved source, and the record has
    [citeable == True]; for every other string the entries of [dois] and
    the value of [citeable] are what they were. *)
Theorem add_doi_by_shape (src0 : value) (cs : list call) (doi : string)
    (src : value) :
  let b := session cs (init src0) in
  let b' := exec (add_doi doi src) b in
  (has_doi_shape doi ->
   entries "dois" b' =
     entries "dois" b ++
     [entry [("value", VStr doi);
             ("source", if is_not_None src then src else src0)]] /\
   citeable b') /\
  (~ has_doi_shape doi ->
   entries "dois" b' = entries "dois" b /\
   dict_get "citeable" (obj b') = dict_get "citeable" (obj b)).
Proof.
  intros b b'. subst b'.
  destruct (session_reachable src0 cs) as [Hwf Hsrc]. fold b in Hwf, Hsrc.
  destruct b as [d s]. cbn [obj source] in Hwf, Hsrc. subst s.
  unfold exec, entries, citeable. rewrite run_add_doi by assumption.
  cbn [snd obj]. pose proof Hwf as (Hseq & _).
  assert (Hl : listlike (dict_get "dois" d) = true) by seq_field Hseq.
  split; intros H.
  - apply doi_normalization_shape in H. rewrite H.
    rewrite !dict_get_set. cbn [String.eqb Ascii.eqb Bool.eqb].
    rewrite dict_get_grow by assumption. cbn [String.eqb Ascii.eqb Bool.eqb].
    split; reflexivity.
  - destruct (_doi_normalization doi) eqn:E.
    + exfalso. apply H. now apply doi_normalization_shape.
    + rewrite !dict_get_ensure. cbn [String.eqb Ascii.eqb Bool.eqb].
      split; [|reflexivity].
      now destruct (dict_get "dois" d) as [[| | | |l| |]|].
Qed.

(** ** Further properties of the builder *)

(** *** The default source *)

(** X1.  No builder method changes [self.source]: after any calls, from
    any builder, returned or raised, the default source is what it was. *)
Theorem source_never_changes (b : LiteratureBuilder) (cs : list call) :
  source (session cs b) = source b.
Proof.
  revert b. induction cs as [|c cs IH]; intros b; cbn [session fold_left].
  - reflexivity.
  - unfold session in IH. rewrite IH.
    apply (@keeps_perform (fun b' => source b' = source b)); auto.
Qed.

(** *** Which calls raise *)

Lemma result_on_fresh (src : value) (c : call) :
  result (perform c) (init src) =
  if is_preprint_date c then Raises AttributeError else Returns tt.
Proof.
  destruct c; try reflexivity.
  - unfold result, perform, add_doi.
    destruct (_doi_normalization doi) eqn:E;
      cbv [bind _ensure_field]; rewrite ?E; reflexivity.
  - destruct (publication_item_returns a) as [item Hitem].
    unfold result, perform, init.
    now rewrite (@run_add_publication_info a [] src item wf_empty Hitem).
Qed.

(** X2.  In every session, with arguments of the documented types, the
    only call that raises is [add_preprint_date]; every other builder
    method returns. *)
Theorem only_preprint_date_raises (src : value) (cs : list call) (c : call) :
  result (perform c) (session cs (init src)) =
  if is_preprint_date c then Raises AttributeError else Returns tt.
Proof.
  rewrite <- (result_on_fresh src c).
  destruct (session_reachable src cs) as [Hwf Hsrc].
  destruct (session cs (init src)) as [d s]. cbn [obj source] in Hwf, Hsrc.
  subst s.
  destruct (perform_footprint c src) as (fp & r & _ & Hrun).
  unfold result, init. now rewrite (Hrun d Hwf), (Hrun [] wf_empty).
Qed.

(** *** When a record is citeable *)

Lemma citeable_after_footprint (fp : footprint) (d : dict) :
  wf d -> footprint_ok fp ->
  dict_get "citeable" (apply_footprint fp d) =
  match fp with
  | Appends _ _ true => Some (VBool true)
  | _ => dict_get "citeable" d
  end.
Proof.
  intros (Hseq & _) Hok. destruct fp as [g xs cite|g v|g v|]; cbn in *.
  - destruct Hok as [Hg _].
    destruct (sequence_field_cases g Hg) as (Hc & _).
    destruct cite; [now rewrite dict_get_set|].
    rewrite dict_get_grow by auto.
    rewrite eqb_neq_false; [reflexivity|congruence].
  - rewrite dict_get_set. destruct Hok as [-> | ->]; reflexivity.
  - destruct Hok as [-> ->]. now rewrite dict_get_ensure.
  - reflexivity.
Qed.

Lemma citeable_on_fresh (src : value) (c : call) :
  dict_get "citeable" (obj (exec (perform c) (init src))) =
  if eprint_or_accepted_doi c then Some (VBool true) else None.
Proof.
  destruct c; try reflexivity.
  - unfold exec, perform, add_doi. cbn [eprint_or_accepted_doi].
    destruct (_doi_normalization doi) eqn:E;
      cbv [bind _ensure_field]; rewrite ?E; reflexivity.
  - destruct (publication_item_returns a) as [item Hitem].
    unfold exec, perform, init.
    now rewrite (@run_add_publication_info a [] src item wf_empty Hitem).
Qed.

Lemma citeable_step (src : value) (c : call) (b : LiteratureBuilder) :
  reachable src b ->
  dict_get "citeable" (obj (exec (perform c) b)) =
  if eprint_or_accepted_doi c then Some (VBool true)
  else dict_get "citeable" (obj b).
Proof.
  destruct b as [d s]. intros [Hwf Hs]. cbn in Hwf, Hs. subst s.
  pose proof (citeable_on_fresh src c) as Hfresh.
  destruct (perform_footprint c src) as (fp & r & Hok & Hrun).
  unfold exec, init in *. rewrite (Hrun [] wf_empty) in Hfresh.
  rewrite (Hrun d Hwf). cbn [snd obj] in *.
  rewrite citeable_after_footprint in * by auto using wf_empty.
  destruct fp as [g xs [|]| | |]; cbn [dict_get] in Hfresh;
    destruct (eprint_or_accepted_doi c); congruence.
Qed.

(** X3.  At the end of a session on a fresh builder, [citeable] is [True]
    if some call added an arXiv e-print or a DOI the pattern accepts, and
    the key is absent otherwise: nothing else sets it, and it is never
    [False]. *)
Theorem citeable_iff_eprint_or_doi (src : value) (cs : list call) :
  dict_get "citeable" (obj (session cs (init src))) =
  if existsb eprint_or_accepted_doi cs then Some (VBool true) else None.
Proof.
  assert (G : forall b, reachable src b ->
            dict_get "citeable" (obj (session cs b)) =
            if existsb eprint_or_accepted_doi cs then Some (VBool true)
            else dict_get "citeable" (obj b)).
  { induction cs as [|c cs IH]; intros b Hb; cbn [session fold_left existsb].
    - reflexivity.
    - destruct (@perform_step src c b Hb) as [Hb' _].
      unfold session in IH. rewrite (IH _ Hb'), (@citeable_step src c b Hb).
      destruct (eprint_or_accepted_doi c); cbn;
        now destruct (existsb eprint_or_accepted_doi cs). }
  now rewrite (G (init src) (reachable_init src)).
Qed.

(** *** The keys of the record *)

Lemma dict_get_grow_other (k g : string) (xs : list value) (d : dict) :
  k <> g -> dict_get k (grow g xs d) = dict_get k d.
Proof.
  intros H. unfold grow.
  destruct (dict_get g d) as [[| | | |l| |]|]; try reflexivity;
    now rewrite dict_get_set, eqb_neq_false.
Qed.

Lemma apply_footprint_outside (fp : footprint) (d : dict) (k : string) :
  footprint_ok fp -> ~ In k vocabulary ->
  dict_get k (apply_footprint fp d) = dict_get k d.
Proof.
  intros Hok Hk.
  assert (Hseq : forall g, In g sequence_fields -> k <> g).
  { intros g Hg ->. apply Hk. unfold vocabulary. apply in_or_app. now left. }
  assert (Hrest : forall g, In g ["citeable"; "thesis_info";
                                  "acquisition_source"; "preprint_date"] ->
                            k <> g).
  { intros g Hg ->. apply Hk. unfold vocabulary. apply in_or_app. now right. }
  destruct fp as [g xs cite|g v|g v|]; cbn in *.
  - destruct Hok as [Hg _].
    destruct cite; [rewrite dict_get_set, eqb_neq_false by (apply Hrest; cbn; auto)|];
      apply dict_get_grow_other; auto.
  - rewrite dict_get_set, eqb_neq_false; [reflexivity|].
    destruct Hok as [-> | ->]; apply Hrest; cbn; auto.
  - destruct Hok as [-> ->]. rewrite dict_get_ensure, eqb_neq_false;
      [reflexivity|apply Hrest; cbn; auto].
  - reflexivity.
Qed.

Lemma session_outside_vocabulary (src : value) (cs : list call) (k : string) :
  ~ In k vocabulary -> dict_get k (obj (session cs (init src))) = None.
Proof.
  intros Hk.
  assert (G : forall b, reachable src b ->
            dict_get k (obj (session cs b)) = dict_get k (obj b)).
  { induction cs as [|c cs IH]; intros b Hb; cbn [session fold_left].
    - reflexivity.
    - destruct (@perform_step src c b Hb) as [Hb' _].
      unfold session in IH. rewrite (IH _ Hb').
      destruct b as [d s]. destruct Hb as [Hwf Hs]. cbn in Hwf, Hs. subst s.
      destruct (perform_footprint c src) as (fp & r & Hok & Hrun).
      unfold exec. rewrite (Hrun d Hwf). cbn [snd obj].
      now apply apply_footprint_outside. }
  now rewrite (G (init src) (reachable_init src)).
Qed.

(** X4.  Whatever the session, every key of the record is one of the
    eighteen sequence fields, [citeable], [thesis_info],
    [acquisition_source] or [preprint_date]: no builder method writes any
    other key. *)
Theorem record_keys_in_vocabulary (src : value) (cs : list call) (k : string) :
  dict_mem k (obj (session cs (init src))) = true -> In k vocabulary.
Proof.
  intros H. destruct (in_dec string_dec k vocabulary) as [Hin|Hout]; [exact Hin|].
  unfold dict_mem in H. rewrite session_outside_vocabulary in H by assumption.
  discriminate H.
Qed.

(** *** Validation of a built record *)

Lemma schema_key_outside_vocabulary : ~ In "$schema" vocabulary.
Proof.
  intros H. cbn in H.
  repeat (destruct H as [H|H]; [discriminate H|]). exact H.
Qed.

(** X5.  A record built by the builder never carries a [$schema] key, so
    [validate(builder.obj)] without a schema name raises
    [SchemaKeyNotFound], carrying the record, in every session and whatever
    the schema store and the validator are; neither of them is consulted. *)
Theorem validate_built_record_needs_name (schema E : Type)
    (load_schema : value -> schema + E)
    (jsonschema_validate : dict -> schema -> option E)
    (src : value) (cs : list call) :
  validate load_schema jsonschema_validate (obj (session cs (init src))) VNone =
  Some (SchemaKeyNotFound (obj (session cs (init src)))).
Proof.
  unfold validate, dict_mem. cbn [is_not_None].
  now rewrite (session_outside_vocabulary src cs "$schema" schema_key_outside_vocabulary).
Qed.

(** *** The nested objects are overwritten *)

Lemma exec_add_thesis (defense_date degree_type : option string)
    (institution : value) (date : option string) (b : LiteratureBuilder) :
  exists item,
    (forall b', exec (add_thesis defense_date degree_type institution date) b' =
                with_obj (dict_set "thesis_info" (VDict item) (obj b')) b').
Proof.
  eexists. intros b'. unfold exec, add_thesis.
  cbv [bind _ensure_field obj_setitem with_obj obj source snd].
  rewrite dict_set_ensure. reflexivity.
Qed.

(** X6.  [add_thesis] replaces [thesis_info] wholesale: from any builder,
    a call followed by a second call leaves exactly the builder that the
    second call alone leaves.  Nothing of the first thesis survives. *)
Theorem add_thesis_last_write_wins
    (defense_date degree_type : option string) (institution : value)
    (date : option string)
    (defense_date' degree_type' : option string) (institution' : value)
    (date' : option string) (b : LiteratureBuilder) :
  exec (add_thesis defense_date' degree_type' institution' date')
    (exec (add_thesis defense_date degree_type institution date) b) =
  exec (add_thesis defense_date' degree_type' institution' date') b.
Proof.
  destruct (exec_add_thesis defense_date degree_type institution date b)
    as [item H].
  destruct (exec_add_thesis defense_date' degree_type' institution' date' b)
    as [item' H'].
  rewrite H, !H'. unfold with_obj; cbn. now rewrite dict_set_set.
Qed.

(** X7.  [add_acquisition_source] replaces [acquisition_source] wholesale
    in the same way: the later call wins, whatever the earlier one wrote. *)
Theorem add_acquisition_source_last_write_wins
    (n : Z) (email src method orcid : value)
    (n' : Z) (email' src' method' orcid' : value) (b : LiteratureBuilder) :
  exec (add_acquisition_source n' email' src' method' orcid')
    (exec (add_acquisition_source n email src method orcid) b) =
  exec (add_acquisition_source n' email' src' method' orcid') b.
Proof.
  unfold exec, add_acquisition_source.
  cbv [bind _ensure_field _get_source obj_setitem with_obj obj source snd].
  rewrite !dict_set_ensure. now rewrite dict_set_set.
Qed.

(** *** [_ensure_field] *)

(** X8.  [_ensure_field] never replaces what a key is bound to, whatever
    that is, and a second call for the same key, with any default, changes
    nothing. *)
Theorem ensure_field_idempotent (f : string) (v w : value) (b : LiteratureBuilder) :
  exec (_ensure_field f w) (exec (_ensure_field f v) b) =
    exec (_ensure_field f v) b /\
  (forall x, dict_get f (obj b) = Some x ->
             exec (_ensure_field f v) b = b).
Proof.
  unfold exec, _ensure_field; cbn. split.
  - unfold with_obj; cbn. f_equal.
    apply dict_ensure_present. rewrite dict_get_ensure, String.eqb_refl.
    now destruct (dict_get f (obj b)).
  - intros x Hx. rewrite dict_ensure_present by congruence.
    apply with_obj_same.
Qed.

(** *** The normalization of author names *)

Lemma chars_of_chars (l : list ascii) : PyStr.chars (PyStr.of_chars l) = l.
Proof. apply list_ascii_of_string_of_list_ascii. Qed.

Lemma split_join_comma (pieces : list string) :
  pieces <> [] ->
  forallb (fun p => free_of "," (PyStr.chars p)) pieces = true ->
  PyStr.split "," (PyStr.join "," pieces) = pieces.
Proof.
  induction pieces as [|p pieces IH]; [contradiction|].
  intros _ H. cbn [forallb] in H. apply andb_prop in H as [Hp Hrest].
  destruct pieces as [|q pieces].
  - unfold PyStr.split. cbn [PyStr.join].
    rewrite split_chars_free by assumption. cbn. now rewrite of_chars_chars.
  - assert (IH' : PyStr.split "," (PyStr.join "," (q :: pieces)) = q :: pieces)
      by (apply IH; [discriminate|assumption]).
    unfold PyStr.split in *.
    change (PyStr.join "," (p :: q :: pieces))
      with (p ++ "," ++ PyStr.join "," (q :: pieces))%string.
    rewrite chars_app.
    change (PyStr.chars ("," ++ PyStr.join "," (q :: pieces)))
      with (","%char :: PyStr.chars (PyStr.join "," (q :: pieces))).
    rewrite split_chars_first by assumption.
    cbn [map]. now rewrite of_chars_chars, IH'.
Qed.

(** X10.  A name without a comma passes through the normalization
    unchanged, spaces and all. *)
Theorem normalize_without_comma (author_name : string) :
  free_of "," (PyStr.chars author_name) = true ->
  _normalize_author_name_with_comma author_name = author_name.
Proof.
  intros H.
  assert (E : PyStr.split "," author_name = [author_name]).
  { apply (split_join_comma [author_name]); [discriminate|].
    cbn. now rewrite H. }
  unfold _normalize_author_name_with_comma. now rewrite E.
Qed.

(** X11.  The normalization on every name with a comma.  The name is cut
    at each comma; the second piece loses all its spaces when it consists of
    uppercase letters, periods and spaces only, and is kept as it is
    otherwise; no other piece is touched; the pieces are put together with
    [", "] between them. *)
Theorem normalize_pieces (p0 p1 : string) (more : list string) :
  forallb (fun p => free_of "," (PyStr.chars p)) (p0 :: p1 :: more) = true ->
  _normalize_author_name_with_comma (PyStr.join "," (p0 :: p1 :: more)) =
  PyStr.join ", "
    (p0 :: (if _verify_author_name_initials p1
            then PyStr.remove_char " " p1 else p1) :: more).
Proof.
  intros H. unfold _normalize_author_name_with_comma.
  rewrite split_join_comma by (assumption || discriminate).
  now destruct (_verify_author_name_initials p1).
Qed.

Lemma normalize_initials (surname rest : string) :
  free_of "," (PyStr.chars surname) = true ->
  _verify_author_name_initials rest = true ->
  _normalize_author_name_with_comma (surname ++ "," ++ rest) =
  (surname ++ ", " ++ PyStr.remove_char " " rest)%string.
Proof.
  intros Hs Hr. unfold _normalize_author_name_with_comma.
  rewrite split_surname_rest by auto using initials_free_of_comma.
  now rewrite Hr.
Qed.

Lemma initials_after_removal (rest : string) :
  _verify_author_name_initials rest = true ->
  _verify_author_name_initials (" " ++ PyStr.remove_char " " rest) = true.
Proof.
  unfold _verify_author_name_initials, PyStr.remove_char. intros H.
  apply negb_true_iff in H. apply negb_true_iff.
  change (PyStr.chars (" " ++ ?s)) with (" "%char :: PyStr.chars s).
  cbn [PyStr.chars]. unfold PyStr.chars at 1. cbn [list_ascii_of_string].
  fold (PyStr.chars (PyStr.of_chars
          (filter (fun x => negb (Ascii.eqb x " ")) (PyStr.chars rest)))).
  rewrite chars_of_chars. cbn [existsb].
  replace (negb (PyStr.is_upper " " || (" " =? ".")%char || (" " =? " ")%char))
    with false by reflexivity.
  cbn [orb]. induction (PyStr.chars rest) as [|x l IH]; cbn in *; [reflexivity|].
  apply orb_false_elim in H as [Hx Hl].
  destruct (negb (Ascii.eqb x " ")); cbn; [rewrite Hx|]; auto.
Qed.

Lemma remove_after_removal (rest : string) :
  PyStr.remove_char " " (" " ++ PyStr.remove_char " " rest) =
  PyStr.remove_char " " rest.
Proof.
  unfold PyStr.remove_char.
  unfold PyStr.chars at 1. cbn [list_ascii_of_string append].
  fold (PyStr.chars (PyStr.of_chars
          (filter (fun x => negb (Ascii.eqb x " ")) (PyStr.chars rest)))).
  rewrite chars_of_chars. cbn [filter Ascii.eqb Bool.eqb negb].
  f_equal. induction (PyStr.chars rest) as [|x l IH]; cbn; [reflexivity|].
  destruct (negb (Ascii.eqb x " ")) eqn:E; cbn; rewrite ?E, IH; reflexivity.
Qed.

(** X12.  On a name [surname,rest] whose rest qualifies as initials, the
    normalization is idempotent: normalizing the normalized name gives it
    back. *)
Theorem normalize_initials_idempotent (surname rest : string) :
  free_of "," (PyStr.chars surname) = true ->
  _verify_author_name_initials rest = true ->
  _normalize_author_name_with_comma
    (_normalize_author_name_with_comma (surname ++ "," ++ rest)) =
  _normalize_author_name_with_comma (surname ++ "," ++ rest).
Proof.
  intros Hs Hr. rewrite (normalize_initials surname rest Hs Hr).
  change (surname ++ ", " ++ PyStr.remove_char " " rest)%string
    with (surname ++ "," ++ (" " ++ PyStr.remove_char " " rest))%string.
  rewrite normalize_initials by auto using initials_after_removal.
  now rewrite remove_after_removal.
Qed.

(** *** What the DOI pattern accepts *)

(** X13.  [pattern.match] anchors the pattern at the start of the string
    only: a string that is accepted stays accepted with any text after
    it. *)
Theorem doi_accepted_with_trailing_text (doi junk : string) :
  _doi_normalization doi = true -> _doi_normalization (doi ++ junk) = true.
Proof.
  unfold _doi_normalization. rewrite !match_prefix_matches.
  intros (s1 & s2 & E & H). exists s1, (s2 ++ PyStr.chars junk).
  split; [|exact H]. now rewrite chars_app, E, app_assoc.
Qed.

Lemma lower_char_twice (x : ascii) :
  PyStr.lower_char (PyStr.lower_char x) = PyStr.lower_char x.
Proof. revert x. every_char. Qed.

Lemma lower_char_cases (x : ascii) :
  PyStr.lower_char x = x \/
  (PyStr.is_upper x = true /\ PyStr.is_lower (PyStr.lower_char x) = true).
Proof.
  destruct x as [[] [] [] [] [] [] [] []]; vm_compute; auto.
Qed.

Lemma is_word_lower (x : ascii) :
  re_word (PyStr.lower_char x) = re_word x.
Proof.
  destruct (lower_char_cases x) as [->|[Hu Hl]]; [reflexivity|].
  rewrite !re_word_letter; [reflexivity| |]; rewrite ?Hu, ?Hl, ?orb_true_r;
    reflexivity.
Qed.

Lemma is_digit_lower (x : ascii) :
  re_digit (PyStr.lower_char x) = re_digit x.
Proof.
  destruct (lower_char_cases x) as [->|[Hu Hl]]; [reflexivity|].
  rewrite !re_digit_letter; [reflexivity| |]; rewrite ?Hu, ?Hl, ?orb_true_r;
    reflexivity.
Qed.

Lemma is_space_lower (x : ascii) :
  re_space (PyStr.lower_char x) = re_space x.
Proof.
  destruct (lower_char_cases x) as [->|[Hu Hl]]; [reflexivity|].
  rewrite !re_space_letter; [reflexivity| |]; rewrite ?Hu, ?Hl, ?orb_true_r;
    reflexivity.
Qed.

Lemma set_matches_lower (set : list item) (x : ascii) :
  set_matches true set (PyStr.lower_char x) = set_matches true set x.
Proof.
  unfold set_matches. induction set as [|it set IH]; cbn; [reflexivity|].
  rewrite IH. f_equal. destruct it; cbn.
  - now rewrite lower_char_twice.
  - apply is_word_lower.
  - apply is_digit_lower.
  - apply is_space_lower.
Qed.

Lemma deriv_lower (x : ascii) (r : regex) :
  deriv true (PyStr.lower_char x) r = deriv true x r.
Proof.
  induction r as [| |set|r1 IH1 r2 IH2|r1 IH1 r2 IH2|r IH]; cbn;
    rewrite ?set_matches_lower, ?IH1, ?IH2, ?IH; reflexivity.
Qed.

Lemma match_prefix_lower (r : regex) (s : list ascii) :
  match_prefix true r (map PyStr.lower_char s) = match_prefix true r s.
Proof.
  revert r. induction s as [|x s IH]; intros r; cbn; [reflexivity|].
  now rewrite deriv_lower, IH.
Qed.

(** X14.  The pattern is compiled with [re.IGNORECASE] and its classes
    hold both cases of every letter: a string is accepted exactly when its
    lowercased form is. *)
Theorem doi_acceptance_ignores_case (doi : string) :
  _doi_normalization (PyStr.lower doi) = _doi_normalization doi.
Proof.
  unfold _doi_normalization, PyStr.lower.
  rewrite chars_of_chars. apply match_prefix_lower.
Qed.

Lemma chars_length (s : string) : length (PyStr.chars s) = String.length s.
Proof.
  unfold PyStr.chars. induction s as [|c s IH]; cbn; [reflexivity|now rewrite IH].
Qed.

Lemma ci_equal_length (l : list ascii) (lit : string) :
  ci_equal l lit -> length l = String.length lit.
Proof.
  unfold ci_equal. intros H. apply (f_equal (@length ascii)) in H.
  rewrite !length_map in H. rewrite H. apply chars_length.
Qed.

(** X15.  Nothing shorter than ten characters is accepted: [10.], four
    digits, a separator and two suffix characters are the least a match
    holds. *)
Theorem doi_accepted_length (doi : string) :
  _doi_normalization doi = true -> 10 <= String.length doi.
Proof.
  intros H. apply doi_normalization_shape in H.
  destruct H as (pre & core & rest & E & _ & Hcore).
  destruct Hcore as (ten & digits & sep & body & last & -> & Hten & Hlen & _
                     & Hsep & Hne & _).
  rewrite <- chars_length, E. rewrite !length_app. cbn [length].
  apply ci_equal_length in Hten. cbn in Hten.
  assert (1 <= length sep)
    by (destruct Hsep as [Hs|Hs]; apply ci_equal_length in Hs; cbn in Hs; lia).
  assert (1 <= length body) by (destruct body; [contradiction|cbn; lia]).
  lia.
Qed.

(** *** The entry of [add_publication_info] *)

Lemma appended_publication_item (src : value) (cs : list call)
    (a : publication_args) :
  exists item,
    publication_item a = Returns item /\
    entries "publication_info"
      (exec (add_publication_info a) (session cs (init src))) =
    entries "publication_info" (session cs (init src)) ++ [VDict item].
Proof.
  destruct (session_reachable src cs) as [Hwf _].
  destruct (session cs (init src)) as [d s0]. cbn [obj] in Hwf.
  destruct (publication_item_returns a) as [item Hitem].
  exists item. split; [exact Hitem|].
  unfold exec. rewrite (@run_add_publication_info a d s0 item Hwf Hitem).
  unfold entries. cbn [snd obj]. destruct Hwf as (Hseq & _).
  now rewrite dict_get_grow by (apply Hseq; cbn; auto 10).
Qed.

Lemma set_supplied_get (k : string) (item : dict) (k' : string) (v : value) :
  dict_get k (set_supplied item (k', v)) =
  if String.eqb k k' && is_not_None v then Some v else dict_get k item.
Proof.
  unfold set_supplied; cbn [fst snd].
  destruct (is_not_None v); [|now rewrite andb_false_r].
  rewrite dict_get_set, andb_true_r. reflexivity.
Qed.

Lemma publication_item_cases (a : publication_args) (item : dict) :
  publication_item a = Returns item ->
  item = fold_left set_supplied (publication_locals a) [] \/
  exists n, item = dict_set "number_of_pages" (VInt n)
                     (fold_left set_supplied (publication_locals a) []).
Proof.
  unfold publication_item, with_number_of_pages.
  destruct (truthy (page_start a) && truthy (page_end a));
    [|intros [= <-]; now left].
  unfold py_int.
  destruct (page_end a) as [| [|] | z | s | | |];
    try destruct (int_of_str s);
    destruct (page_start a) as [| [|] | z' | s' | | |];
    try destruct (int_of_str s'); intros [= <-]; eauto.
Qed.

(** X16.  In every session the entry that [add_publication_info] appends
    holds each of the eight arguments that is not [None] under its own
    name, with the value as given, holds no key for an argument that is
    [None], and holds no other key except possibly [number_of_pages]. *)
Theorem publication_entry_supplied_keys (src : value) (cs : list call)
    (a : publication_args) :
  exists item,
    entries "publication_info"
      (exec (add_publication_info a) (session cs (init src))) =
    entries "publication_info" (session cs (init src)) ++ [VDict item] /\
    (forall k v, In (k, v) (publication_locals a) ->
                 dict_get k item = if is_not_None v then Some v else None) /\
    (forall k, dict_mem k item = true ->
               k = "number_of_pages" \/
               In k (map fst (publication_locals a))).
Proof.
  destruct (appended_publication_item src cs a) as (item & Hitem & Happ).
  exists item. split; [exact Happ|].
  assert (Hbase : forall k, dict_get k item =
            if String.eqb k "number_of_pages"
            then dict_get "number_of_pages" item
            else dict_get k (fold_left set_supplied (publication_locals a) [])).
  { intros k. destruct (String.eqb_spec k "number_of_pages") as [->|Hk];
      [reflexivity|].
    destruct (publication_item_cases a item Hitem) as [->|[n ->]]; [reflexivity|].
    now rewrite dict_get_set, eqb_neq_false. }
  split.
  - intros k v Hin. rewrite Hbase.
    unfold publication_locals in *. cbn [fold_left].
    repeat (destruct Hin as [Hin|Hin];
            [injection Hin as <- <-; cbn [String.eqb Ascii.eqb Bool.eqb];
             rewrite !set_supplied_get;
             cbn [String.eqb Ascii.eqb Bool.eqb andb dict_get];
             match goal with |- context [is_not_None ?x] =>
               destruct (is_not_None x) end; reflexivity|]).
    destruct Hin.
  - intros k Hk. unfold dict_mem in Hk. rewrite Hbase in Hk.
    destruct (String.eqb_spec k "number_of_pages") as [Heq|Hne]; [now left|].
    right. unfold publication_locals in *. cbn [fold_left map fst] in *.
    rewrite !set_supplied_get in Hk. cbn [dict_get] in Hk.
    repeat match type of Hk with
           | context [String.eqb k ?s] =>
               destruct (String.eqb_spec k s) as [Heq|?];
               [rewrite Heq; cbn; auto 10|cbn [andb] in Hk]
           end.
    cbn in Hk. discriminate Hk.
Qed.

(** X17.  Page bounds given as integers.  The count is written only when
    neither bound is zero, because the bounds are tested for truth before
    they are converted: [page_start=0] gives no [number_of_pages] at all;
    otherwise the entry has [number_of_pages == page_end - page_start + 1],
    whatever its sign. *)
Theorem number_of_pages_integer_bounds (src : value) (cs : list call)
    (a : publication_args) (first last : Z) :
  page_start a = VInt first -> page_end a = VInt last ->
  exists item,
    entries "publication_info"
      (exec (add_publication_info a) (session cs (init src))) =
    entries "publication_info" (session cs (init src)) ++ [VDict item] /\
    dict_get "number_of_pages" item =
    if (first =? 0)%Z || (last =? 0)%Z then None
    else Some (VInt (last - first + 1)).
Proof.
  intros Hs He.
  destruct (appended_publication_item src cs a) as (item & Hitem & Happ).
  exists item. split; [exact Happ|].
  unfold publication_item, with_number_of_pages in Hitem.
  rewrite Hs, He in Hitem. cbn [truthy py_int] in Hitem.
  destruct (first =? 0)%Z, (last =? 0)%Z; cbn in Hitem;
    injection Hitem as <-;
    try apply supplied_keys_no_number_of_pages.
  now rewrite dict_get_set.
Qed.

(** *** [add_thesis] and letter case *)

Lemma lower_twice (s : string) : PyStr.lower (PyStr.lower s) = PyStr.lower s.
Proof.
  unfold PyStr.lower. rewrite chars_of_chars, map_map. f_equal.
  apply map_ext. intros x. apply lower_char_twice.
Qed.

(** X18.  [add_thesis] stores its dates and degree type lowercased, so
    arguments that differ in letter case only give the same result and the
    same record, from any builder. *)
Theorem add_thesis_ignores_case (defense_date degree_type : option string)
    (institution : value) (date : option string) (b : LiteratureBuilder) :
  add_thesis (option_map PyStr.lower defense_date)
    (option_map PyStr.lower degree_type) institution
    (option_map PyStr.lower date) b =
  add_thesis defense_date degree_type institution date b.
Proof.
  unfold add_thesis. cbn [fold_left].
  destruct defense_date, degree_type, date; cbn [option_map];
    unfold set_lowered; cbn [fst snd]; rewrite ?lower_twice; reflexivity.
Qed.

(** *** [add_abstract] and surrounding white space *)

Lemma lstrip_spaces (l rest : list ascii) :
  forallb PyStr.is_space l = true ->
  PyStr.lstrip_chars (l ++ rest) = PyStr.lstrip_chars rest.
Proof.
  induction l as [|x l IH]; cbn; [reflexivity|].
  intros H. apply andb_prop in H as [Hx Hl]. now rewrite Hx, IH.
Qed.

Lemma lstrip_kept (l rest : list ascii) :
  PyStr.lstrip_chars l <> [] ->
  PyStr.lstrip_chars (l ++ rest) = PyStr.lstrip_chars l ++ rest.
Proof.
  induction l as [|x l IH]; cbn; [contradiction|].
  destruct (PyStr.is_space x); [exact IH|reflexivity].
Qed.

Lemma lstrip_all_spaces (l : list ascii) :
  forallb PyStr.is_space l = true -> PyStr.lstrip_chars l = [].
Proof.
  intros H. rewrite <- (app_nil_r l). now rewrite lstrip_spaces.
Qed.

Lemma strip_padding (left text right : string) :
  forallb PyStr.is_space (PyStr.chars left) = true ->
  forallb PyStr.is_space (PyStr.chars right) = true ->
  PyStr.strip (left ++ text ++ right) = PyStr.strip text.
Proof.
  intros Hl Hr. unfold PyStr.strip. f_equal. f_equal.
  rewrite !chars_app. rewrite lstrip_spaces by assumption.
  destruct (PyStr.lstrip_chars (PyStr.chars text)) as [|c m] eqn:E.
  - assert (Hall : PyStr.lstrip_chars (PyStr.chars text ++ PyStr.chars right) = []).
    { clear Hl. induction (PyStr.chars text) as [|x l IH]; cbn in *.
      - now apply lstrip_all_spaces.
      - destruct (PyStr.is_space x); [now apply IH|discriminate]. }
    now rewrite Hall.
  - rewrite lstrip_kept by (rewrite E; discriminate). rewrite E.
    rewrite rev_app_distr. apply lstrip_spaces.
    rewrite forallb_forall in *. intros x Hx. apply Hr. now apply in_rev.
Qed.

(** X19.  [add_abstract] stores the abstract stripped: white space before
    and after the text changes neither the result nor the record, from any
    builder.  In particular an abstract of white space only is still added,
    as an entry whose value is the empty string. *)
Theorem add_abstract_ignores_padding (left text right : string) (src : value)
    (b : LiteratureBuilder) :
  forallb PyStr.is_space (PyStr.chars left) = true ->
  forallb PyStr.is_space (PyStr.chars right) = true ->
  add_abstract (left ++ text ++ right) src b = add_abstract text src b.
Proof.
  intros Hl Hr. unfold add_abstract. now rewrite strip_padding.
Qed.

(** *** [add_report_numbers] *)

(** X20.  In every session [add_report_numbers] appends one entry for each
    dictionary of its list, in order: the value is what the dictionary binds
    [report_number] to, or the empty string when it has no such key, and
    the source is the resolved one.  An empty list still creates the field
    and appends nothing. *)
Theorem add_report_numbers_entries (src0 : value) (cs : list call)
    (report_numbers : list dict) (src : value) :
  let b := session cs (init src0) in
  let b' := exec (add_report_numbers report_numbers src) b in
  dict_mem "report_numbers" (obj b') = true /\
  entries "report_numbers" b' =
    entries "report_numbers" b ++
    map (fun report_number =>
           entry [("value", match dict_get "report_number" report_number with
                            | Some v => v
                            | None => VStr ""
                            end);
                  ("source", if is_not_None src then src else src0)])
      report_numbers.
Proof.
  intros b b'. subst b'.
  destruct (session_reachable src0 cs) as [Hwf Hsrc]. fold b in Hwf, Hsrc.
  destruct b as [d s]. cbn [obj source] in Hwf, Hsrc. subst s.
  destruct Hwf as (Hseq & _).
  assert (Hl : listlike (dict_get "report_numbers" d) = true) by seq_field Hseq.
  unfold exec, add_report_numbers, entries, dict_mem.
  cbv [bind _ensure_field _get_source with_obj obj source].
  rewrite run_extend_ensured by assumption. cbn [snd obj].
  rewrite dict_get_grow by assumption. cbn [String.eqb Ascii.eqb Bool.eqb].
  split; reflexivity.
Qed.

(** *** One call, one field *)

(** X21.  In every session a call changes at most one sequence field:
    there is a field such that every other sequence field is bound after
    the call to what it was bound to before. *)
Theorem call_changes_one_sequence_field (src : value) (cs : list call) (c : call) :
  exists g, forall f,
    In f sequence_fields -> f <> g ->
    dict_get f (obj (exec (perform c) (session cs (init src)))) =
    dict_get f (obj (session cs (init src))).
Proof.
  destruct (session_reachable src cs) as [Hwf Hsrc].
  destruct (session cs (init src)) as [d s]. cbn [obj source] in Hwf, Hsrc.
  subst s.
  destruct (perform_footprint c src) as (fp & r & Hok & Hrun).
  exists (match fp with Appends g _ _ => g | _ => "" end).
  intros f Hf Hne. unfold exec. rewrite (Hrun d Hwf). cbn [snd obj].
  rewrite dict_get_apply_footprint by assumption.
  destruct fp as [g xs cite| | |]; try reflexivity.
  now rewrite eqb_neq_false.
Qed.

End Properties.

(** * Concrete runs, with the Python 2 tables *)

Lemma sequence_fields_accumulate_witness :
  dict_get "abstracts"
    (obj (session [AddAbstract " first " VNone; AddDoi "10.1234/ab" VNone;
                   AddAbstract "second" (VStr "arXiv")]
            (init (VStr "submitter")))) =
  Some (VList [entry [("value", VStr "first"); ("source", VStr "submitter")];
               entry [("value", VStr "second"); ("source", VStr "arXiv")]]) /\
  entries "abstracts"
    (session [AddThesis None None VNone None; AddAbstract "third" VNone]
       (session [AddAbstract " first " VNone; AddDoi "10.1234/ab" VNone;
                 AddAbstract "second" (VStr "arXiv")]
          (init (VStr "submitter")))) =
  [entry [("value", VStr "first"); ("source", VStr "submitter")];
   entry [("value", VStr "second"); ("source", VStr "arXiv")]] ++
  [entry [("value", VStr "third"); ("source", VStr "submitter")]].
Proof.
  exact (sequence_fields_accumulate (VStr "submitter")
           [AddAbstract " first " VNone; AddDoi "10.1234/ab" VNone;
            AddAbstract "second" (VStr "arXiv")]
           [AddThesis None None VNone None; AddAbstract "third" VNone]
           "abstracts" (or_introl eq_refl)).
Defined.

Lemma citeable_never_reset_witness :
  citeable
    (session
       [AddPublicationInfo no_publication_args; AddDoi "not-a-doi" VNone;
        AddThesis (Some "2017-01-01") None VNone None;
        AddPreprintDate (VStr "2017-01-01");
        AddAcquisitionSource 7 VNone VNone VNone VNone;
        MakeAuthor "Smith, J. K." None None]
       (exec (add_arxiv_eprint (VStr "1234.5678") (VList [VStr "hep-th"]))
          (init (VStr "submitter")))).
Proof.
  apply citeable_never_reset. reflexivity.
Defined.

Lemma rejected_doi_frame_witness :
  result (add_doi "not-a-doi" VNone) (init (VStr "submitter")) = Returns tt /\
  (dict_get "dois" (obj (init (VStr "submitter"))) = None ->
   exec (add_doi "not-a-doi" VNone) (init (VStr "submitter")) =
   with_obj ([] ++ [("dois", VList [])]) (init (VStr "submitter"))) /\
  (dict_get "dois" (obj (init (VStr "submitter"))) <> None ->
   exec (add_doi "not-a-doi" VNone) (init (VStr "submitter")) =
   init (VStr "submitter")).
Proof.
  apply (rejected_doi_frame (py := python2_bytes) (init (VStr "submitter")) "not-a-doi" VNone).
  vm_compute. reflexivity.
Defined.



(** The two calls of the specification's examples. *)
Example number_of_pages_1_10 :
  entries "publication_info"
    (exec (add_publication_info
             (mkPublication VNone VNone VNone (VStr "10") (VStr "1") VNone VNone VNone))
       (init (VStr "submitter"))) =
  [VDict [("page_end", VStr "10"); ("page_start", VStr "1");
          ("number_of_pages", VInt 10)]].
Proof. reflexivity. Qed.

Example number_of_pages_x_10 :
  entries "publication_info"
    (exec (add_publication_info
             (mkPublication VNone VNone VNone (VStr "10") (VStr "x") VNone VNone VNone))
       (init (VStr "submitter"))) =
  [VDict [("page_end", VStr "10"); ("page_start", VStr "x")]].
Proof. reflexivity. Qed.

Lemma make_author_full_name_initials_witness :
  dict_get "full_name" (make_author "Smith, J K" None (VBool true)) =
    Some (VStr "Smith, JK") /\
  dict_get "full_name" (make_author "Smith, J. K." None (VBool false)) =
    Some (VStr "Smith, J.K.").
Proof.
  split.
  - apply (make_author_full_name_initials "Smith" " J K" None (VBool true));
      reflexivity.
  - apply (make_author_full_name_initials "Smith" " J. K." None (VBool false));
      reflexivity.
Defined.

(** C3 as the specification has it fails on both of its examples: the
    spaces of [" J K"] are removed and no period is put in, and the rest
    [" John"] keeps its leading space behind the [", "] of the join. *)
Lemma make_author_full_name_counterexample :
  dict_get "full_name" (make_author_call "Smith, J K" None (Some (VBool true))) <>
    Some (VStr "Smith, J.K.") /\
  dict_get "full_name" (make_author_call "Smith, John" None None) <>
    Some (VStr "Smith, John").
Proof. split; discriminate. Qed.

(** Both sides of the amended claim are inhabited: a string of the shape,
    and one that is not. *)
Lemma add_doi_by_shape_witness :
  (entries "dois"
     (exec (add_doi "doi:10.1234/ab" VNone) (init (VStr "submitter"))) =
   [entry [("value", VStr "doi:10.1234/ab"); ("source", VStr "submitter")]] /\
   citeable (exec (add_doi "doi:10.1234/ab" VNone) (init (VStr "submitter")))) /\
  (entries "dois"
     (exec (add_doi "not-a-doi" VNone)
        (exec (add_doi "doi:10.1234/ab" VNone) (init (VStr "submitter")))) =
   [entry [("value", VStr "doi:10.1234/ab"); ("source", VStr "submitter")]] /\
   dict_get "citeable"
     (obj (exec (add_doi "not-a-doi" VNone)
             (exec (add_doi "doi:10.1234/ab" VNone) (init (VStr "submitter"))))) =
   Some (VBool true)).
Proof.
  split.
  - apply (add_doi_by_shape (py := python2_bytes) (VStr "submitter") [] "doi:10.1234/ab" VNone).
    apply doi_normalization_shape. reflexivity.
  - apply (add_doi_by_shape (py := python2_bytes) (VStr "submitter") [AddDoi "doi:10.1234/ab" VNone]
             "not-a-doi" VNone).
    intros H. apply doi_normalization_shape in H. discriminate H.
Defined.

(** C6 as the specification has it fails at ["10.1234/a"]: the string is
    [10.], four digits, [/] and the one-character suffix [a], which is not
    empty and does not end in a period; the pattern asks for two suffix
    characters, so nothing is appended and [citeable] is not set. *)
Lemma add_doi_one_character_suffix_counterexample :
  has_doi_shape_as_specified "10.1234/a" /\
  entries "dois" (exec (add_doi "10.1234/a" VNone) (init (VStr "submitter"))) = [] /\
  dict_get "citeable"
    (obj (exec (add_doi "10.1234/a" VNone) (init (VStr "submitter")))) = None.
Proof.
  split; [|split; reflexivity].
  exists [], (PyStr.chars "10.1234/a"), []. split; [reflexivity|].
  split; [now left|].
  exists (PyStr.chars "10."), (PyStr.chars "1234"), (PyStr.chars "/"),
    (PyStr.chars "a").
  split; [reflexivity|]. split; [reflexivity|]. split; [reflexivity|].
  split; [reflexivity|]. split; [now left|]. split; [discriminate|].
  split; [reflexivity|].
  intros [|x [|y body]]; discriminate.
Qed.

Lemma record_keys_in_vocabulary_witness :
  In "thesis_info" vocabulary.
Proof.
  apply (record_keys_in_vocabulary (py := python2_bytes) (VStr "submitter")
           [AddAbstract "a" VNone; AddThesis (Some "2017-01-01") None VNone None]
           "thesis_info").
  reflexivity.
Defined.

Lemma normalize_without_comma_witness :
  _normalize_author_name_with_comma "J. K.  Smith" = "J. K.  Smith".
Proof.
  apply (normalize_without_comma "J. K.  Smith"). reflexivity.
Defined.

Lemma normalize_pieces_witness :
  _normalize_author_name_with_comma "Smith, J. K., Jr." = "Smith, J.K.,  Jr.".
Proof.
  apply (normalize_pieces "Smith" " J. K." [" Jr."]). reflexivity.
Defined.

Lemma normalize_initials_idempotent_witness :
  _normalize_author_name_with_comma
    (_normalize_author_name_with_comma "Smith, J. K.") =
  _normalize_author_name_with_comma "Smith, J. K.".
Proof.
  apply (normalize_initials_idempotent "Smith" " J. K."); reflexivity.
Defined.

Lemma doi_accepted_with_trailing_text_witness :
  _doi_normalization ("10.1234/ab" ++ ". See the erratum!") = true.
Proof.
  apply (doi_accepted_with_trailing_text (py := python2_bytes) "10.1234/ab" ". See the erratum!").
  reflexivity.
Defined.

Lemma doi_accepted_length_witness : 10 <= String.length "10.1234/ab".
Proof.
  apply (doi_accepted_length (py := python2_bytes) "10.1234/ab"). reflexivity.
Defined.

Lemma number_of_pages_integer_bounds_witness :
  (exists item,
     entries "publication_info"
       (exec (add_publication_info
                (mkPublication VNone VNone VNone (VInt 9) (VInt 0)
                   VNone VNone VNone))
          (session [] (init (VStr "submitter")))) =
     entries "publication_info" (session [] (init (VStr "submitter"))) ++
     [VDict item] /\
     dict_get "number_of_pages" item = None) /\
  (exists item,
     entries "publication_info"
       (exec (add_publication_info
                (mkPublication VNone VNone VNone (VInt 3) (VInt 7)
                   VNone VNone VNone))
          (session [] (init (VStr "submitter")))) =
     entries "publication_info" (session [] (init (VStr "submitter"))) ++
     [VDict item] /\
     dict_get "number_of_pages" item = Some (VInt (-3))).
Proof.
  split.
  - apply (number_of_pages_integer_bounds (py := python2_bytes) (VStr "submitter") []
             (mkPublication VNone VNone VNone (VInt 9) (VInt 0)
                VNone VNone VNone) 0 9); reflexivity.
  - apply (number_of_pages_integer_bounds (py := python2_bytes) (VStr "submitter") []
             (mkPublication VNone VNone VNone (VInt 3) (VInt 7)
                VNone VNone VNone) 7 3); reflexivity.
Defined.

Lemma add_abstract_ignores_padding_witness :
  add_abstract "  	 " VNone (init (VStr "submitter")) =
  (Returns tt,
   {| obj := [("abstracts",
               VList [entry [("value", VStr ""); ("source", VStr "submitter")]])];
      source := VStr "submitter" |}).
Proof.
  apply (add_abstract_ignores_padding "  " "" "	 " VNone
           (init (VStr "submitter"))); reflexivity.
Defined.
